(** * noise/noise_protocol.py: the protocol descriptor [NoiseProtocol]

  A shallow embedding of the class [NoiseProtocol]: the constructor
  [__init__] with its name resolver [_parse_protocol_name] and its PSK
  checks, and the finalizer [handshake_done].  Python exceptions are
  values of [exn]; a method that mutates [self] is a function from the
  descriptor to an outcome and the descriptor it leaves behind. *)

From Stdlib Require Import ZArith NArith Ascii String List Lia.
From stdpp Require Import base option list gmap strings.

Local Open Scope Z_scope.

(** ** Python values used by the module *)

Module Py.

(** [bytes]: a sequence of octets. *)
Definition bytes : Type := string.

(** [len(b)] for a [bytes] object. *)
Definition len (b : bytes) : Z := Z.of_nat (String.length b).

(** [str]: a sequence of Unicode code points. *)
Definition char : Type := N.
Definition str : Type := list char.

(** A [str] literal written with ASCII characters only. *)
Fixpoint lit (s : string) : str :=
  match s with
  | EmptyString => []
  | String a s' => N_of_ascii a :: lit s'
  end.

(** The code point of an ASCII character. *)
Definition ord (a : ascii) : char := N_of_ascii a.

(** The Unicode character database, which [str.isupper] consults for
    the characters beyond ASCII. *)
Class Unicode : Type := unicode_isupper : char -> bool.

(** [c.isupper()] for one character [c]. *)
Definition isupper `{Unicode} (c : char) : bool :=
  if (c <? 128)%N then ((ord "A" <=? c) && (c <=? ord "Z"))%N
  else unicode_isupper c.

(** Truthiness, as tested by [if x], [if not x] and [any]. *)
Class Truthy (A : Type) : Type := truthy : A -> bool.

#[export] Instance bool_truthy : Truthy bool := fun b => b.
#[export] Instance list_truthy {A} : Truthy (list A) :=
  fun l => match l with [] => false | _ :: _ => true end.
(** [None] is false; any other object answers for itself. *)
#[export] Instance option_truthy {A} `{Truthy A} : Truthy (option A) :=
  fun o => match o with None => false | Some a => truthy a end.

(** Exceptions.  A [ValueError] raised by this module carries the
    arguments of its format string; [Other] is a message of a
    collaborator. *)
Inductive message : Type :=
| NotBytes (type_of_name : string)
    (* 'Protocol name has to be of type <bytes>, not {}' *)
| NameTooLong (bound : Z)
    (* 'Protocol name too long, has to be at most {} chars long' *)
| BadPrefix (name : bytes)
    (* 'Noise Protocol name shall begin with Noise! Provided: {}' *)
| UnknownMethod (key : string) (given : str) (known : gset str)
    (* 'Unknown {} in Noise Protocol name, given {}, known {}' *)
| InvalidPskLength
    (* 'Invalid psk length!' *)
| BadPskCount (required : Z) (given : Z)
    (* 'Bad number of PSKs provided to this protocol! {} are required, given {}' *)
| Other (text : string).

Inductive exn : Type :=
| ValueError (m : message)
| UnicodeDecodeError
| IndexError
| AttributeError (attribute : string)
| NotImplementedError.

(** [isinstance(e, ValueError)]: [UnicodeDecodeError] derives from
    [UnicodeError], which derives from [ValueError]. *)
Definition is_ValueError (e : exn) : bool :=
  match e with
  | ValueError _ | UnicodeDecodeError => true
  | IndexError | AttributeError _ | NotImplementedError => false
  end.

Inductive result (A : Type) : Type :=
| Ok (a : A)
| Raise (e : exn).
Arguments Ok {A} a.
Arguments Raise {A} e.

#[export] Instance result_ret : MRet result := @Ok.
#[export] Instance result_bind : MBind result :=
  fun A B k r => match r with Ok a => k a | Raise e => Raise e end.

(** [l[i]] on a list: [IndexError] out of range. *)
Definition index {A} (l : list A) (i : nat) : result A :=
  match l !! i with
  | Some a => Ok a
  | None => Raise IndexError
  end.

(** [s.split(sep)] with a separator of one character. *)
Fixpoint split (sep : char) (s : str) : list str :=
  match s with
  | [] => [[]]
  | c :: s' =>
      if (c =? sep)%N then [] :: split sep s'
      else match split sep s' with
           | piece :: pieces => (c :: piece) :: pieces
           | [] => [[c]]
           end
  end.

(** [sep.join(pieces)] with a separator of one character. *)
Fixpoint join (sep : char) (pieces : list str) : str :=
  match pieces with
  | [] => []
  | piece :: pieces' =>
      match pieces' with
      | [] => piece
      | _ :: _ => piece ++ sep :: join sep pieces'
      end
  end.

(** [b.decode()]: strict UTF-8. *)
Definition continuation (b : N) : bool := ((0x80 <=? b) && (b <=? 0xBF))%N.
Definition between (lo b hi : N) : bool := ((lo <=? b) && (b <=? hi))%N.

Fixpoint decode (b : bytes) : option str :=
  match b with
  | EmptyString => Some []
  | String a0 r0 =>
    let b0 := N_of_ascii a0 in
    if (b0 <? 0x80)%N then cons b0 <$> decode r0
    else match r0 with
    | EmptyString => None
    | String a1 r1 =>
      let b1 := N_of_ascii a1 in
      if between 0xC2 b0 0xDF then
        if continuation b1
        then cons ((b0 - 0xC0) * 64 + (b1 - 0x80))%N <$> decode r1
        else None
      else match r1 with
      | EmptyString => None
      | String a2 r2 =>
        let b2 := N_of_ascii a2 in
        if between 0xE0 b0 0xEF then
          if (if (b0 =? 0xE0)%N then between 0xA0 b1 0xBF
              else if (b0 =? 0xED)%N then between 0x80 b1 0x9F
              else continuation b1) && continuation b2
          then cons ((b0 - 0xE0) * 4096 + (b1 - 0x80) * 64 + (b2 - 0x80))%N
                 <$> decode r2
          else None
        else match r2 with
        | EmptyString => None
        | String a3 r3 =>
          let b3 := N_of_ascii a3 in
          if between 0xF0 b0 0xF4 then
            if (if (b0 =? 0xF0)%N then between 0x90 b1 0xBF
                else if (b0 =? 0xF4)%N then between 0x80 b1 0x8F
                else continuation b1) && continuation b2 && continuation b3
            then cons ((b0 - 0xF0) * 262144 + (b1 - 0x80) * 4096
                       + (b2 - 0x80) * 64 + (b3 - 0x80))%N <$> decode r3
            else None
          else None
        end
      end
    end
  end.

End Py.

Import Py.


(** ** The collaborators of the module *)

(** [from .constants import MAX_PROTOCOL_NAME_LEN, Empty] *)
Module constants.

Class t : Type := { MAX_PROTOCOL_NAME_LEN : Z }.

(** Modelled from the spec: the class [Empty] of [.constants], whose
    instances are the empty placeholders of the state containers at
    construction.  A container holds the placeholder [Empty()], which
    has no attribute, or the object that the handshake engine has put
    in its place. *)
Inductive container (A : Type) : Type :=
| Empty
| Object (a : A).
Arguments Empty {A}.
Arguments Object {A} a.

End constants.

(** [from .functions import dh_map, cipher_map, hash_map, keypair_map,
    hmac_hash, hkdf] *)
Module functions.

Class t : Type := {
  DH : Type;
  Cipher : Type;
  Hash : Type;
  KeyPair : Type;
  HashFn : Type;
  DH_truthy : Truthy DH;
  Cipher_truthy : Truthy Cipher;
  Hash_truthy : Truthy Hash;
  KeyPair_truthy : Truthy KeyPair;
  dh_map : gmap str DH;
  cipher_map : gmap str Cipher;
  hash_map : gmap str Hash;
  keypair_map : gmap str KeyPair;
  (** the attribute [fn] of a hash object *)
  fn : Hash -> HashFn;
}.

#[global] Existing Instances DH_truthy Cipher_truthy Hash_truthy KeyPair_truthy.

(** [partial(hmac_hash, algorithm=a)] *)
Record hmac_hash `{t} : Type := { algorithm : HashFn }.
(** [partial(hkdf, hmac_hash_fn=f)] *)
Record hkdf `{t} : Type := { hmac_hash_fn : hmac_hash }.

End functions.

(** [from .patterns import patterns_map] *)
Module patterns.

Class t : Type := {
  PatternClass : Type;
  Pattern : Type;
  PatternClass_truthy : Truthy PatternClass;
  patterns_map : gmap str PatternClass;
  (** calling a pattern class gives a new instance *)
  new : PatternClass -> Pattern;
  one_way : Pattern -> bool;
  psk_count : Pattern -> Z;
  (** mutates the pattern, or raises *)
  apply_pattern_modifiers : Pattern -> list str -> result Pattern;
}.
#[global] Existing Instance PatternClass_truthy.

End patterns.

(** Modelled from the spec: the objects that the handshake engine puts
    into the descriptor, a handshake state with the role flag
    [initiator] and a symmetric state with the transcript hash [h];
    their classes are not part of this file. *)
Module state.

Class t : Type := {
  HandshakeState : Type;
  SymmetricState : Type;
  CipherState : Type;
  initiator : HandshakeState -> bool;
  h : SymmetricState -> bytes;
}.

End state.

(** ** The class [NoiseProtocol] *)

Module data.
(** The dictionary [data] of [_parse_protocol_name]: the key to look up
    in each registry, and the modifiers. *)
Record t : Type := {
  pattern : str;
  dh : str;
  cipher : str;
  hash : str;
  keypair : str;
  pattern_modifiers : list str;
}.
End data.

Module mapped_data.
(** The dictionary that [_parse_protocol_name] returns: one entry of a
    registry under each key of [methods]. *)
Record t `{functions.t, patterns.t} : Type := {
  pattern : patterns.PatternClass;
  dh : functions.DH;
  cipher : functions.Cipher;
  hash : functions.Hash;
  keypair : functions.KeyPair;
}.
End mapped_data.

Module NoiseProtocol.
Import constants.

Section Class.
Context `{Unicode, constants.t, functions.t, patterns.t, state.t}.

(** The attributes of an instance.  An attribute that [del] may remove
    is an option: [None] once it is deleted. *)
Record t : Type := {
  name : bytes;
  pattern : patterns.Pattern;
  pattern_modifiers : list str;
  psks : option (list bytes);
  is_psk_handshake : bool;
  dh_fn : functions.DH;
  cipher_fn : functions.Cipher;
  hash_fn : functions.Hash;
  keypair_fn : functions.KeyPair;
  hmac : functions.hmac_hash;
  hkdf : functions.hkdf;
  initiator : option bool;
  one_way : bool;
  handshake_hash : option bytes;
  handshake_state : container state.HandshakeState;
  symmetric_state : container state.SymmetricState;
  cipher_state_handshake : container state.CipherState;
  cipher_state_encrypt : option (container state.CipherState);
  cipher_state_decrypt : option (container state.CipherState);
}.

(** The argument [protocol_name] of the constructor: a [bytes] object,
    or an object of another type. *)
Inductive object : Type :=
| Bytes (b : bytes)
| NoBytes (type_name : string).

(** Lines 69-77: the loop over the characters of [unpacked[1]]; the
    result is [pattern] and [modifiers_str] when the loop is left. *)
Fixpoint scan (pattern : str) (rest : str) : str * option str :=
  match rest with
  | [] => (pattern, None)
  | char :: rest' =>
      if isupper char then scan (pattern ++ [char]) rest'
      else (pattern, Some rest)
  end.

(** Lines 91-95: [map_dict.get(data[key])] and the test [if not func]. *)
Definition get_func {V} `{Truthy V}
    (key : string) (map_dict : gmap str V) (given : str) : result V :=
  let func := map_dict !! given in
  match func with
  | Some f =>
      if negb (truthy func)
      then Raise (ValueError (UnknownMethod key given (dom map_dict)))
      else Ok f
  | None => Raise (ValueError (UnknownMethod key given (dom map_dict)))
  end.

(** Lines 69-78: the pattern name and the modifiers of [unpacked[1]]. *)
Definition pattern_and_modifiers (unpacked_1 : str) : str * list str :=
  let '(pattern, modifiers_str) := scan [] unpacked_1 in
  let modifiers :=
    if truthy modifiers_str
    then split (ord "+") (default [] modifiers_str)
    else [] in
  (pattern, modifiers).

(** Lines 87-95: the loop over [methods], in the order of its keys. *)
Definition map_data (data : data.t) : result mapped_data.t :=
  f_pattern ← get_func "pattern" patterns.patterns_map (data.pattern data);
  f_dh ← get_func "dh" functions.dh_map (data.dh data);
  f_cipher ← get_func "cipher" functions.cipher_map (data.cipher data);
  f_hash ← get_func "hash" functions.hash_map (data.hash data);
  f_keypair ← get_func "keypair" functions.keypair_map (data.keypair data);
  Ok {| mapped_data.pattern := f_pattern;
        mapped_data.dh := f_dh;
        mapped_data.cipher := f_cipher;
        mapped_data.hash := f_hash;
        mapped_data.keypair := f_keypair |}.

Definition _parse_protocol_name (name : bytes)
  : result (mapped_data.t * list str) :=
  match decode name with
  | None => Raise UnicodeDecodeError
  | Some text =>
    let unpacked := split (ord "_") text in
    unpacked_0 ← index unpacked 0;
    if negb (bool_decide (unpacked_0 = lit "Noise"))
    then Raise (ValueError (BadPrefix name))
    else
      unpacked_1 ← index unpacked 1;
      let '(pattern, modifiers) := pattern_and_modifiers unpacked_1 in
      unpacked_2 ← index unpacked 2;
      unpacked_3 ← index unpacked 3;
      unpacked_4 ← index unpacked 4;
      let data := {| data.pattern := lit "Pattern" ++ pattern;
                     data.dh := unpacked_2;
                     data.cipher := unpacked_3;
                     data.hash := unpacked_4;
                     data.keypair := unpacked_2;
                     data.pattern_modifiers := modifiers |} in
      mapped_data ← map_data data;
      Ok (mapped_data, modifiers)
  end.

(** Lines 40-44: the checks made when [is_psk_handshake] is true. *)
Definition check_psks (pattern : patterns.Pattern) (psks : list bytes)
  : result unit :=
  if existsb (fun psk => negb (len psk =? 32)) psks
  then Raise (ValueError InvalidPskLength)
  else if negb (Z.of_nat (length psks) =? patterns.psk_count pattern)
  then Raise (ValueError (BadPskCount (patterns.psk_count pattern)
                                      (Z.of_nat (length psks))))
  else Ok tt.

(** Lines 31-34: the instance of the pattern class, with the modifiers
    applied when there are any. *)
Definition new_pattern (cls : patterns.PatternClass)
    (pattern_modifiers : list str) : result patterns.Pattern :=
  let pattern := patterns.new cls in
  if truthy pattern_modifiers
  then patterns.apply_pattern_modifiers pattern pattern_modifiers
  else Ok pattern.

(** The constructor.  [psks] is of its declared type, [List[bytes]] with
    the default [None]. *)
Definition __init__ (protocol_name : object) (psks : option (list bytes))
  : result t :=
  match protocol_name with
  | NoBytes type_name => Raise (ValueError (NotBytes type_name))
  | Bytes protocol_name =>
    if len protocol_name >? MAX_PROTOCOL_NAME_LEN
    then Raise (ValueError (NameTooLong MAX_PROTOCOL_NAME_LEN))
    else
      '(mappings, pattern_modifiers) ← _parse_protocol_name protocol_name;
      pattern ← new_pattern (mapped_data.pattern mappings) pattern_modifiers;
      let is_psk_handshake := if negb (truthy psks) then false else true in
      _ ← (if is_psk_handshake
           then check_psks pattern (default [] psks)
           else Ok tt);
      let hmac := {| functions.algorithm :=
                       functions.fn (mapped_data.hash mappings) |} in
      Ok {| name := protocol_name;
            pattern := pattern;
            pattern_modifiers := pattern_modifiers;
            psks := psks;
            is_psk_handshake := is_psk_handshake;
            dh_fn := mapped_data.dh mappings;
            cipher_fn := mapped_data.cipher mappings;
            hash_fn := mapped_data.hash mappings;
            keypair_fn := mapped_data.keypair mappings;
            hmac := hmac;
            hkdf := {| functions.hmac_hash_fn := hmac |};
            initiator := None;
            one_way := false;
            handshake_hash := None;
            handshake_state := Empty;
            symmetric_state := Empty;
            cipher_state_handshake := Empty;
            cipher_state_encrypt := Some Empty;
            cipher_state_decrypt := Some Empty |}
  end.

(** *** Methods that run on a constructed instance

    A method takes [self] and gives its outcome together with [self] as
    the method leaves it, also when it raises. *)
Definition method (A : Type) : Type := t -> result A * t.

Definition ret {A} (a : A) : method A := fun self => (Ok a, self).
Definition raise {A} (e : exn) : method A := fun self => (Raise e, self).
Definition seq {A B} (m : method A) (k : A -> method B) : method B :=
  fun self =>
    match m self with
    | (Ok a, self') => k a self'
    | (Raise e, self') => (Raise e, self')
    end.
(** Reading [self.a], and the assignment [self.a = v] as an update. *)
Definition read {A} (a : t -> A) : method A := fun self => (Ok (a self), self).
Definition assign (update : t -> t) : method unit :=
  fun self => (Ok tt, update self).
(** The outcome of an expression that may raise. *)
Definition eval {A} (r : result A) : method A := fun self => (r, self).

Definition set_initiator (v : option bool) (self : t) : t :=
  {| name := name self; pattern := pattern self;
     pattern_modifiers := pattern_modifiers self; psks := psks self;
     is_psk_handshake := is_psk_handshake self; dh_fn := dh_fn self;
     cipher_fn := cipher_fn self; hash_fn := hash_fn self;
     keypair_fn := keypair_fn self; hmac := hmac self; hkdf := hkdf self;
     initiator := v;
     one_way := one_way self; handshake_hash := handshake_hash self;
     handshake_state := handshake_state self;
     symmetric_state := symmetric_state self;
     cipher_state_handshake := cipher_state_handshake self;
     cipher_state_encrypt := cipher_state_encrypt self;
     cipher_state_decrypt := cipher_state_decrypt self |}.

Definition set_handshake_hash (v : option bytes) (self : t) : t :=
  {| name := name self; pattern := pattern self;
     pattern_modifiers := pattern_modifiers self; psks := psks self;
     is_psk_handshake := is_psk_handshake self; dh_fn := dh_fn self;
     cipher_fn := cipher_fn self; hash_fn := hash_fn self;
     keypair_fn := keypair_fn self; hmac := hmac self; hkdf := hkdf self;
     initiator := initiator self;
     one_way := one_way self; handshake_hash := v;
     handshake_state := handshake_state self;
     symmetric_state := symmetric_state self;
     cipher_state_handshake := cipher_state_handshake self;
     cipher_state_encrypt := cipher_state_encrypt self;
     cipher_state_decrypt := cipher_state_decrypt self |}.

Definition set_cipher_state_encrypt
    (v : option (container state.CipherState)) (self : t) : t :=
  {| name := name self; pattern := pattern self;
     pattern_modifiers := pattern_modifiers self; psks := psks self;
     is_psk_handshake := is_psk_handshake self; dh_fn := dh_fn self;
     cipher_fn := cipher_fn self; hash_fn := hash_fn self;
     keypair_fn := keypair_fn self; hmac := hmac self; hkdf := hkdf self;
     initiator := initiator self;
     one_way := one_way self; handshake_hash := handshake_hash self;
     handshake_state := handshake_state self;
     symmetric_state := symmetric_state self;
     cipher_state_handshake := cipher_state_handshake self;
     cipher_state_encrypt := v;
     cipher_state_decrypt := cipher_state_decrypt self |}.

Definition set_cipher_state_decrypt
    (v : option (container state.CipherState)) (self : t) : t :=
  {| name := name self; pattern := pattern self;
     pattern_modifiers := pattern_modifiers self; psks := psks self;
     is_psk_handshake := is_psk_handshake self; dh_fn := dh_fn self;
     cipher_fn := cipher_fn self; hash_fn := hash_fn self;
     keypair_fn := keypair_fn self; hmac := hmac self; hkdf := hkdf self;
     initiator := initiator self;
     one_way := one_way self; handshake_hash := handshake_hash self;
     handshake_state := handshake_state self;
     symmetric_state := symmetric_state self;
     cipher_state_handshake := cipher_state_handshake self;
     cipher_state_encrypt := cipher_state_encrypt self;
     cipher_state_decrypt := v |}.


(** Lines 37-38 together: [self.psks] and [self.is_psk_handshake]. *)
Definition set_psks (v : option (list bytes)) (self : t) : t :=
  {| name := name self; pattern := pattern self;
     pattern_modifiers := pattern_modifiers self; psks := v;
     is_psk_handshake := if negb (truthy v) then false else true;
     dh_fn := dh_fn self;
     cipher_fn := cipher_fn self; hash_fn := hash_fn self;
     keypair_fn := keypair_fn self; hmac := hmac self; hkdf := hkdf self;
     initiator := initiator self;
     one_way := one_way self; handshake_hash := handshake_hash self;
     handshake_state := handshake_state self;
     symmetric_state := symmetric_state self;
     cipher_state_handshake := cipher_state_handshake self;
     cipher_state_encrypt := cipher_state_encrypt self;
     cipher_state_decrypt := cipher_state_decrypt self |}.

(** [o.a] for a state container [o]: the placeholder has no attribute. *)
Definition getattr {A B} (a : A -> B) (attribute : string)
    (o : container A) : result B :=
  match o with
  | Empty => Raise (AttributeError attribute)
  | Object x => Ok (a x)
  end.

(** [self.a] for an attribute that [del] may have removed. *)
Definition read_slot {A} (a : t -> option A) (attribute : string)
  : method A :=
  fun self =>
    match a self with
    | Some v => (Ok v, self)
    | None => (Raise (AttributeError attribute), self)
    end.

(** [del self.a]: raises when the attribute is not there. *)
Definition del {A} (a : t -> option A) (remove : t -> t)
    (attribute : string) : method unit :=
  fun self =>
    match a self with
    | Some _ => (Ok tt, remove self)
    | None => (Raise (AttributeError attribute), self)
    end.

Notation "x <~ m ;; k" := (seq m (fun x => k))
  (at level 100, m at next level, right associativity, only parsing).
Notation "m ;;; k" := (seq m (fun _ => k))
  (at level 100, right associativity, only parsing).

(** Modelled from the spec: the handshake engine, which is not part of
    this file, puts its handshake state (with the role [initiator]) and
    its symmetric state (with the transcript hash [h]) into the
    descriptor, and the two cipher states of the session, before it
    calls [handshake_done]. *)
Definition engine_completes
    (hs : state.HandshakeState) (ss : state.SymmetricState)
    (c1 c2 : state.CipherState) (self : t) : t :=
  {| name := name self; pattern := pattern self;
     pattern_modifiers := pattern_modifiers self; psks := psks self;
     is_psk_handshake := is_psk_handshake self; dh_fn := dh_fn self;
     cipher_fn := cipher_fn self; hash_fn := hash_fn self;
     keypair_fn := keypair_fn self; hmac := hmac self; hkdf := hkdf self;
     initiator := initiator self;
     one_way := one_way self; handshake_hash := handshake_hash self;
     handshake_state := Object hs;
     symmetric_state := Object ss;
     cipher_state_handshake := cipher_state_handshake self;
     cipher_state_encrypt := Some (Object c1);
     cipher_state_decrypt := Some (Object c2) |}.

Definition handshake_done : method unit :=
  handshake_state <~ read handshake_state;;
  v <~ eval (getattr state.initiator "initiator" handshake_state);;
  assign (set_initiator (Some v));;;
  pattern <~ read pattern;;
  (if patterns.one_way pattern
   then
     initiator <~ read initiator;;
     if truthy initiator
     then del cipher_state_decrypt (set_cipher_state_decrypt None)
            "cipher_state_decrypt"
     else del cipher_state_encrypt (set_cipher_state_encrypt None)
            "cipher_state_encrypt"
   else ret tt);;;
  symmetric_state <~ read symmetric_state;;
  v <~ eval (getattr state.h "h" symmetric_state);;
  assign (set_handshake_hash (Some v)).

(** [self._parse_protocol_name()] on a constructed instance: it reads
    [self.name] and assigns nothing. *)
Definition parse_protocol_name_of_self
  : method (mapped_data.t * list str) :=
  name <~ read name;;
  eval (_parse_protocol_name name).

(** *** Notions for the statements *)

(** A run of uppercase letters, and a suffix that does not go on with
    one: together, the pattern name and the modifiers of a segment. *)
Definition uppercase (P : str) : Prop :=
  Forall (fun c => isupper c = true) P.
Definition no_uppercase_ahead (mods : str) : Prop :=
  match mods with
  | [] => True
  | c :: _ => isupper c = false
  end.

(** A PSK list that passes lines 38-44: none, an empty one, or PSKs of
    32 bytes each, as many as the pattern asks for. *)
Definition accepted_psks (pattern : patterns.Pattern)
    (psks : option (list bytes)) : Prop :=
  match psks with
  | None | Some [] => True
  | Some l =>
      Forall (fun psk => len psk = 32) l
      /\ Z.of_nat (length l) = patterns.psk_count pattern
  end.

(** The instance that the constructor returns when nothing raises. *)
Definition constructed (name : bytes) (mappings : mapped_data.t)
    (pattern_modifiers : list str) (pattern : patterns.Pattern)
    (psks : option (list bytes)) : t :=
  let hmac := {| functions.algorithm :=
                   functions.fn (mapped_data.hash mappings) |} in
  {| name := name;
     pattern := pattern;
     pattern_modifiers := pattern_modifiers;
     psks := psks;
     is_psk_handshake := if negb (truthy psks) then false else true;
     dh_fn := mapped_data.dh mappings;
     cipher_fn := mapped_data.cipher mappings;
     hash_fn := mapped_data.hash mappings;
     keypair_fn := mapped_data.keypair mappings;
     hmac := hmac;
     hkdf := {| functions.hmac_hash_fn := hmac |};
     initiator := None;
     one_way := false;
     handshake_hash := None;
     handshake_state := Empty;
     symmetric_state := Empty;
     cipher_state_handshake := Empty;
     cipher_state_encrypt := Some Empty;
     cipher_state_decrypt := Some Empty |}.

(** Lines 38-44 on the PSK list as the caller gave it. *)
Definition psk_checks (pattern : patterns.Pattern)
    (psks : option (list bytes)) : result unit :=
  if truthy psks then check_psks pattern (default [] psks) else Ok tt.

(** The handshake engine has completed on [self]: both states hold
    their objects and both cipher-state attributes are there. *)
Definition completed (self : t)
    (hs : state.HandshakeState) (ss : state.SymmetricState)
    (ce cd : container state.CipherState) : Prop :=
  handshake_state self = Object hs
  /\ symmetric_state self = Object ss
  /\ cipher_state_encrypt self = Some ce
  /\ cipher_state_decrypt self = Some cd.

(** The instance that [handshake_done] leaves when nothing raises, from
    the role [i] and the transcript hash [v] that it read. *)
Definition finalized (i : bool) (v : bytes) (self : t) : t :=
  let self := set_initiator (Some i) self in
  let self :=
    if patterns.one_way (pattern self)
    then if i then set_cipher_state_decrypt None self
         else set_cipher_state_encrypt None self
    else self in
  set_handshake_hash (Some v) self.

(** [self'] has the configuration of [self]: every attribute but
    [initiator], [handshake_hash] and the two cipher states of the
    session. *)
Definition same_configuration (self self' : t) : Prop :=
  name self' = name self
  /\ pattern self' = pattern self
  /\ pattern_modifiers self' = pattern_modifiers self
  /\ psks self' = psks self
  /\ is_psk_handshake self' = is_psk_handshake self
  /\ dh_fn self' = dh_fn self
  /\ cipher_fn self' = cipher_fn self
  /\ hash_fn self' = hash_fn self
  /\ keypair_fn self' = keypair_fn self
  /\ hmac self' = hmac self
  /\ hkdf self' = hkdf self
  /\ one_way self' = one_way self
  /\ handshake_state self' = handshake_state self
  /\ symmetric_state self' = symmetric_state self
  /\ cipher_state_handshake self' = cipher_state_handshake self.

(** The methods of the class that a holder of an instance can call, and
    the instance that a call leaves. *)
Inductive call : Type :=
| call_handshake_done
| call_parse_protocol_name.

Definition after (c : call) (self : t) : t :=
  match c with
  | call_handshake_done => snd (handshake_done self)
  | call_parse_protocol_name => snd (parse_protocol_name_of_self self)
  end.

Definition after_all (calls : list call) (self : t) : t :=
  fold_left (fun self c => after c self) calls self.

End Class.
End NoiseProtocol.

(** ** An environment for the examples *)

Module Sample.

(** A table for the examples, whose names are ASCII: it is not consulted
    on them. *)
Definition unicode : Unicode := fun _ => false.

(** Modelled from the spec: [MAX_PROTOCOL_NAME_LEN] of [.constants], a
    fixed bound on the length of the identifier; 255 is the bound of the
    Noise framework. *)
Definition constants : constants.t :=
  {| constants.MAX_PROTOCOL_NAME_LEN := 255 |}.

Definition always_true (A : Type) : Truthy A := fun _ => true.

(** Modelled from the spec: the registries of [.functions], from short
    names to capability handles; a handle is shown by its name, and the
    keys are those that the specification uses. *)
Definition functions : functions.t :=
  {| functions.DH := string;
     functions.Cipher := string;
     functions.Hash := string;
     functions.KeyPair := string;
     functions.HashFn := string;
     functions.DH_truthy := always_true string;
     functions.Cipher_truthy := always_true string;
     functions.Hash_truthy := always_true string;
     functions.KeyPair_truthy := always_true string;
     functions.dh_map := {[ lit "25519" := "DH 25519"%string ]};
     functions.cipher_map :=
       {[ lit "AESGCM" := "Cipher AESGCM"%string;
          lit "ChaChaPoly" := "Cipher ChaChaPoly"%string ]};
     functions.hash_map :=
       {[ lit "SHA256" := "Hash SHA256"%string;
          lit "BLAKE2s" := "Hash BLAKE2s"%string ]};
     functions.keypair_map := {[ lit "25519" := "KeyPair 25519"%string ]};
     functions.fn := fun hash => hash |}.

(** A pattern of the examples: its classification, the number of PSKs
    it requires and the modifiers applied to it. *)
Record pattern : Type := {
  one_way : bool;
  psk_count : Z;
  modifiers : list str;
}.

(** [n] copies of [s] in a row. *)
Fixpoint copies (n : nat) (s : string) : string :=
  match n with
  | O => EmptyString
  | S n' => String.append s (copies n' s)
  end.

Definition isdigit (c : char) : bool := ((ord "0" <=? c) && (c <=? ord "9"))%N.

(** One modifier: [psk] followed by digits asks for one more PSK, any
    other modifier is refused. *)
Definition apply_pattern_modifier (p : pattern) (modifier : str)
  : result pattern :=
  match modifier with
  | 112%N :: 115%N :: 107%N :: d :: ds =>
      if forallb isdigit (d :: ds)
      then Ok {| one_way := one_way p; psk_count := psk_count p + 1;
                 modifiers := modifiers p ++ [modifier] |}
      else Raise (ValueError (Other "Improper psk modifier"))
  | _ => Raise (ValueError (Other "Unknown pattern modifier"))
  end.

Fixpoint apply_pattern_modifiers (p : pattern) (l : list str)
  : result pattern :=
  match l with
  | [] => Ok p
  | modifier :: l' =>
      p' ← apply_pattern_modifier p modifier;
      apply_pattern_modifiers p' l'
  end.

(** Modelled from the spec: the pattern registry of [.patterns], whose
    instances expose [psk_count], a [one_way] classification and the
    application of modifiers, which fails on a modifier it does not
    know.  [N] is a one-way pattern, [XX] and [IK] are not. *)
Definition patterns : patterns.t :=
  {| patterns.PatternClass := pattern;
     patterns.Pattern := pattern;
     patterns.PatternClass_truthy := always_true pattern;
     patterns.patterns_map :=
       {[ lit "PatternN" := {| one_way := true; psk_count := 0; modifiers := [] |};
          lit "PatternXX" := {| one_way := false; psk_count := 0; modifiers := [] |};
          lit "PatternIK" := {| one_way := false; psk_count := 0; modifiers := [] |} ]};
     patterns.new := fun cls => cls;
     patterns.one_way := one_way;
     patterns.psk_count := psk_count;
     patterns.apply_pattern_modifiers := apply_pattern_modifiers |}.

(** Modelled from the spec: the states of the handshake engine; the
    handshake state holds the role, the symmetric state the transcript
    hash, and a cipher state is shown by its name. *)
Definition state : state.t :=
  {| state.HandshakeState := bool;
     state.SymmetricState := bytes;
     state.CipherState := string;
     state.initiator := fun hs => hs;
     state.h := fun ss => ss |}.

(** A descriptor constructed in this environment, without PSKs, and
    the same descriptor when the engine has completed the handshake in
    the given role. *)
Definition descriptor (name : bytes)
  : result (@NoiseProtocol.t functions patterns state) :=
  @NoiseProtocol.__init__ unicode constants functions patterns state
    (NoiseProtocol.Bytes name) None.

Definition session (name : bytes) (initiator : bool)
  : result (@NoiseProtocol.t functions patterns state) :=
  self ← descriptor name;
  Ok (@NoiseProtocol.engine_completes functions patterns state
        initiator "transcript hash"%string
        "c1"%string "c2"%string self).

(** A descriptor into which the engine has put its handshake state and
    not yet its symmetric state. *)
Definition interrupted (name : bytes) (initiator : bool)
  : result (@NoiseProtocol.t functions patterns state) :=
  self ← descriptor name;
  Ok ({| NoiseProtocol.name := NoiseProtocol.name self;
        NoiseProtocol.pattern := NoiseProtocol.pattern self;
        NoiseProtocol.pattern_modifiers :=
          NoiseProtocol.pattern_modifiers self;
        NoiseProtocol.psks := NoiseProtocol.psks self;
        NoiseProtocol.is_psk_handshake :=
          NoiseProtocol.is_psk_handshake self;
        NoiseProtocol.dh_fn := NoiseProtocol.dh_fn self;
        NoiseProtocol.cipher_fn := NoiseProtocol.cipher_fn self;
        NoiseProtocol.hash_fn := NoiseProtocol.hash_fn self;
        NoiseProtocol.keypair_fn := NoiseProtocol.keypair_fn self;
        NoiseProtocol.hmac := NoiseProtocol.hmac self;
        NoiseProtocol.hkdf := NoiseProtocol.hkdf self;
        NoiseProtocol.initiator := NoiseProtocol.initiator self;
        NoiseProtocol.one_way := NoiseProtocol.one_way self;
        NoiseProtocol.handshake_hash := NoiseProtocol.handshake_hash self;
        NoiseProtocol.handshake_state :=
          @constants.Object (@state.HandshakeState state) initiator;
        NoiseProtocol.symmetric_state :=
          @constants.Empty (@state.SymmetricState state);
        NoiseProtocol.cipher_state_handshake :=
          NoiseProtocol.cipher_state_handshake self;
        NoiseProtocol.cipher_state_encrypt :=
          NoiseProtocol.cipher_state_encrypt self;
        NoiseProtocol.cipher_state_decrypt :=
          NoiseProtocol.cipher_state_decrypt self |}
      : @NoiseProtocol.t functions patterns state).

(** A name of 300 bytes, none of which begins a UTF-8 sequence. *)
Definition long_garbage : bytes := copies 300 (String "255"%char EmptyString).

(** An identifier of the form of the grammar that is longer than the
    bound, and one with segments behind the hash token that is. *)
Definition long_modifiers : string :=
  String.append "psk0" (copies 70 "+psk0").
Definition long_identifier : bytes :=
  String.append "Noise_XX"
    (String.append long_modifiers "_25519_AESGCM_SHA256").

End Sample.

(** ** Properties *)

Import NoiseProtocol.

Section Splitting.

Lemma split_not_nil (sep : char) (s : str) : split sep s <> [].
Proof.
  destruct s as [|c s]; simpl; [discriminate|].
  destruct (c =? sep)%N; [discriminate|].
  destruct (split sep s); discriminate.
Qed.

(** A piece without the separator, followed by the separator, is the
    first piece of the result. *)
Lemma split_piece (sep : char) (piece rest : str) :
  sep ∉ piece ->
  split sep (piece ++ sep :: rest) = piece :: split sep rest.
Proof.
  induction piece as [|c piece IH]; intros Hnot; simpl.
  - now rewrite N.eqb_refl.
  - rewrite not_elem_of_cons in Hnot. destruct Hnot as [Hc Hpiece].
    destruct (N.eqb_spec c sep) as [->|_]; [congruence|].
    now rewrite (IH Hpiece).
Qed.

Lemma split_whole (sep : char) (piece : str) :
  sep ∉ piece -> split sep piece = [piece].
Proof.
  induction piece as [|c piece IH]; intros Hnot; simpl; [reflexivity|].
  rewrite not_elem_of_cons in Hnot. destruct Hnot as [Hc Hpiece].
  destruct (N.eqb_spec c sep) as [->|_]; [congruence|].
  now rewrite (IH Hpiece).
Qed.

(** What lies behind the fifth piece does not reach the first five. *)
Lemma index_take {A} (l : list A) (n i : nat) :
  (i < n)%nat -> index (take n l) i = index l i.
Proof. intros Hi. unfold index. now rewrite lookup_take_lt. Qed.

End Splitting.

Section Resolver.
Context `{Unicode, constants.t, functions.t, patterns.t, state.t}.

Lemma isupper_underscore : isupper (ord "_") = false.
Proof. reflexivity. Qed.

Lemma isupper_plus : isupper (ord "+") = false.
Proof. reflexivity. Qed.

Lemma uppercase_no_underscore (P : str) : uppercase P -> ord "_" ∉ P.
Proof.
  intros HP Hin. unfold uppercase in HP. rewrite Forall_forall in HP.
  specialize (HP _ Hin). rewrite isupper_underscore in HP. discriminate.
Qed.

(** The loop runs through a run of uppercase letters and adds them to
    [pattern]. *)
Lemma scan_uppercase (pattern P rest : str) :
  uppercase P -> scan pattern (P ++ rest) = scan (pattern ++ P) rest.
Proof.
  intros HP. revert pattern.
  induction HP as [|c P Hc _ IH]; intros pattern; simpl.
  - now rewrite app_nil_r.
  - rewrite Hc, IH. now rewrite <- app_assoc.
Qed.

(** It stops at the first character that is not one, with the rest of
    the segment as [modifiers_str]. *)
Lemma scan_stop (pattern mods : str) :
  no_uppercase_ahead mods ->
  scan pattern mods
  = (pattern, match mods with [] => None | _ :: _ => Some mods end).
Proof.
  destruct mods as [|c mods]; simpl; [reflexivity|].
  now intros ->.
Qed.

Lemma pattern_and_modifiers_spec (P mods : str) :
  uppercase P -> no_uppercase_ahead mods ->
  pattern_and_modifiers (P ++ mods)
  = (P, if truthy mods then split (ord "+") mods else []).
Proof.
  intros HP Hmods. unfold pattern_and_modifiers.
  rewrite (scan_uppercase [] P mods HP), (scan_stop _ mods Hmods).
  now destruct mods.
Qed.

(** A registry entry that is there and true is what the lookup gives. *)
Lemma get_func_Some {V} `{Truthy V} (key : string) (map_dict : gmap str V)
    (given : str) (f : V) :
  map_dict !! given = Some f -> truthy f = true ->
  get_func key map_dict given = Ok f.
Proof.
  intros Hget Htrue. unfold get_func. rewrite Hget.
  unfold truthy at 1, option_truthy. now rewrite Htrue.
Qed.

(** The parser on a name of five segments or more, the first of which
    is [Noise]. *)
Lemma parse_segments (name : bytes) (text s1 s2 s3 s4 : str)
    (extra : list str) :
  decode name = Some text ->
  split (ord "_") text = lit "Noise" :: s1 :: s2 :: s3 :: s4 :: extra ->
  _parse_protocol_name name
  = (let '(pattern, modifiers) := pattern_and_modifiers s1 in
     mapped_data ← map_data {| data.pattern := lit "Pattern" ++ pattern;
                               data.dh := s2;
                               data.cipher := s3;
                               data.hash := s4;
                               data.keypair := s2;
                               data.pattern_modifiers := modifiers |};
     Ok (mapped_data, modifiers)).
Proof.
  intros Hdecode Hsplit. unfold _parse_protocol_name.
  rewrite Hdecode. cbv zeta. rewrite Hsplit. reflexivity.
Qed.

End Resolver.

Section Constructor.
Context `{Unicode, constants.t, functions.t, patterns.t, state.t}.

Lemma init_stages (name : bytes) (psks : option (list bytes)) :
  __init__ (Bytes name) psks
  = if len name >? constants.MAX_PROTOCOL_NAME_LEN
    then Raise (ValueError (NameTooLong constants.MAX_PROTOCOL_NAME_LEN))
    else
      '(mappings, pattern_modifiers) ← _parse_protocol_name name;
      pattern ← new_pattern (mapped_data.pattern mappings) pattern_modifiers;
      _ ← psk_checks pattern psks;
      Ok (constructed name mappings pattern_modifiers pattern psks).
Proof.
  unfold __init__, psk_checks, constructed.
  destruct (len name >? constants.MAX_PROTOCOL_NAME_LEN); [reflexivity|].
  destruct (_parse_protocol_name name) as [[mappings modifiers]|e];
    [|reflexivity].
  simpl. destruct (new_pattern _ _) as [pattern|e]; [|reflexivity].
  simpl. now destruct (truthy psks).
Qed.

(** Line 24: a name over the bound is refused before it is parsed. *)
Lemma init_too_long (name : bytes) (psks : option (list bytes)) :
  constants.MAX_PROTOCOL_NAME_LEN < len name ->
  __init__ (Bytes name) psks
  = Raise (ValueError (NameTooLong constants.MAX_PROTOCOL_NAME_LEN)).
Proof.
  intros Hlen. rewrite init_stages.
  now destruct (Z.gtb_spec (len name) constants.MAX_PROTOCOL_NAME_LEN);
    [|lia].
Qed.

(** What a successful construction went through. *)
Lemma init_Ok (name : bytes) (psks : option (list bytes)) (self : t) :
  __init__ (Bytes name) psks = Ok self ->
  exists mappings pattern_modifiers pattern,
    len name <= constants.MAX_PROTOCOL_NAME_LEN
    /\ _parse_protocol_name name = Ok (mappings, pattern_modifiers)
    /\ new_pattern (mapped_data.pattern mappings) pattern_modifiers
       = Ok pattern
    /\ psk_checks pattern psks = Ok tt
    /\ self = constructed name mappings pattern_modifiers pattern psks.
Proof.
  rewrite init_stages.
  destruct (Z.gtb_spec (len name) constants.MAX_PROTOCOL_NAME_LEN) as [|Hlen];
    [discriminate|].
  destruct (_parse_protocol_name name) as [[mappings modifiers]|e] eqn:Hparse;
    [|discriminate].
  simpl. destruct (new_pattern _ _) as [pattern|e] eqn:Hnew; [|discriminate].
  simpl. destruct (psk_checks pattern psks) as [[]|e] eqn:Hpsks;
    [|discriminate].
  simpl. intros [= <-]. exists mappings, modifiers, pattern.
  repeat split; [lia|assumption..].
Qed.

Lemma init_Ok_intro (name : bytes) (psks : option (list bytes))
    (mappings : mapped_data.t) (pattern_modifiers : list str)
    (pattern : patterns.Pattern) :
  len name <= constants.MAX_PROTOCOL_NAME_LEN ->
  _parse_protocol_name name = Ok (mappings, pattern_modifiers) ->
  new_pattern (mapped_data.pattern mappings) pattern_modifiers = Ok pattern ->
  psk_checks pattern psks = Ok tt ->
  __init__ (Bytes name) psks
  = Ok (constructed name mappings pattern_modifiers pattern psks).
Proof.
  intros Hlen Hparse Hnew Hpsks. rewrite init_stages.
  destruct (Z.gtb_spec (len name) constants.MAX_PROTOCOL_NAME_LEN); [lia|].
  rewrite Hparse. simpl. rewrite Hnew. simpl. now rewrite Hpsks.
Qed.

(** The checks on an accepted PSK list pass. *)
Lemma psk_checks_accepted (pattern : patterns.Pattern)
    (psks : option (list bytes)) :
  accepted_psks pattern psks -> psk_checks pattern psks = Ok tt.
Proof.
  destruct psks as [[|psk l]|]; try reflexivity.
  intros [Hlen Hcount]. unfold psk_checks, check_psks.
  change (truthy (Some (psk :: l))) with true. cbv iota.
  change (default [] (Some (psk :: l))) with (psk :: l).
  destruct (existsb _ (psk :: l)) eqn:Hexists.
  - apply existsb_exists in Hexists. destruct Hexists as (x & Hin & Hx).
    rewrite Forall_forall in Hlen. apply list_elem_of_In in Hin.
    rewrite (Hlen x Hin) in Hx. discriminate.
  - destruct (Z.eqb_spec (Z.of_nat (length (psk :: l)))
                (patterns.psk_count pattern)); [reflexivity|contradiction].
Qed.

End Constructor.

Section ResolverClaims.
Context `{Unicode, constants.t, functions.t, patterns.t, state.t}.

(** The segments of a name of the form
    [Noise_<P><mods>_<dh>_<cipher>_<hash>]. *)
Lemma split_identifier (P mods dh cipher hash : str) :
  uppercase P ->
  ord "_" ∉ mods -> ord "_" ∉ dh -> ord "_" ∉ cipher -> ord "_" ∉ hash ->
  split (ord "_")
    (lit "Noise_" ++ P ++ mods ++ lit "_" ++ dh ++ lit "_" ++ cipher
       ++ lit "_" ++ hash)
  = [lit "Noise"; P ++ mods; dh; cipher; hash].
Proof.
  intros HP Hmods Hdh Hcipher Hhash.
  change (lit "Noise_" ++ ?x) with (lit "Noise" ++ ord "_" :: x).
  assert (Hsep : forall x : str, lit "_" ++ x = ord "_" :: x)
    by reflexivity.
  rewrite !Hsep.
  rewrite split_piece
    by (simpl; rewrite !not_elem_of_cons; repeat split;
        (discriminate || apply not_elem_of_nil)).
  rewrite (app_assoc P mods).
  rewrite split_piece
    by (apply not_elem_of_app; split;
        [now apply uppercase_no_underscore|assumption]).
  rewrite !split_piece by assumption.
  now rewrite split_whole.
Qed.

(** C1, as amended: for every identifier of the form
    [Noise_<P><mods>_<dh>_<cipher>_<hash>], with [P] a run of uppercase
    letters that [mods] does not continue, that is within
    [MAX_PROTOCOL_NAME_LEN], whose pattern, DH, cipher and hash keys
    have entries in their registries and whose DH key has one in the
    key-pair registry, whose modifiers the pattern accepts, and with a
    PSK list that is absent, empty or valid, construction succeeds; the
    descriptor holds the pattern of the entry of [P], the entries of
    [dh], [cipher], [hash] and the key-pair entry of [dh], and its
    modifier list is [mods] split on [+], or empty when [mods] is. *)
Theorem C1_construction_resolves_the_roles
    (name : bytes) (P mods dh cipher hash : str)
    (psks : option (list bytes))
    (f_pattern : patterns.PatternClass) (f_dh : functions.DH)
    (f_cipher : functions.Cipher) (f_hash : functions.Hash)
    (f_keypair : functions.KeyPair) (pattern : patterns.Pattern) :
  decode name
  = Some (lit "Noise_" ++ P ++ mods ++ lit "_" ++ dh ++ lit "_" ++ cipher
            ++ lit "_" ++ hash) ->
  uppercase P -> no_uppercase_ahead mods ->
  ord "_" ∉ mods -> ord "_" ∉ dh -> ord "_" ∉ cipher -> ord "_" ∉ hash ->
  len name <= constants.MAX_PROTOCOL_NAME_LEN ->
  patterns.patterns_map !! (lit "Pattern" ++ P) = Some f_pattern ->
  truthy f_pattern = true ->
  functions.dh_map !! dh = Some f_dh -> truthy f_dh = true ->
  functions.cipher_map !! cipher = Some f_cipher -> truthy f_cipher = true ->
  functions.hash_map !! hash = Some f_hash -> truthy f_hash = true ->
  functions.keypair_map !! dh = Some f_keypair -> truthy f_keypair = true ->
  new_pattern f_pattern (if truthy mods then split (ord "+") mods else [])
  = Ok pattern ->
  accepted_psks pattern psks ->
  exists self : NoiseProtocol.t,
    __init__ (Bytes name) psks = Ok self
    /\ NoiseProtocol.name self = name
    /\ NoiseProtocol.pattern self = pattern
    /\ pattern_modifiers self
       = (if truthy mods then split (ord "+") mods else [])
    /\ dh_fn self = f_dh
    /\ cipher_fn self = f_cipher
    /\ hash_fn self = f_hash
    /\ keypair_fn self = f_keypair.
Proof.
  intros Hdecode HP Hmods Hm Hd Hc Hh Hlen Hpattern Tpattern Hdh Tdh
    Hcipher Tcipher Hhash Thash Hkeypair Tkeypair Hnew Hpsks.
  pose proof (split_identifier P mods dh cipher hash HP Hm Hd Hc Hh) as Hsplit.
  pose proof (parse_segments name _ _ _ _ _ [] Hdecode Hsplit) as Hparse.
  rewrite (pattern_and_modifiers_spec P mods HP Hmods) in Hparse.
  unfold map_data in Hparse. cbn [data.pattern data.dh data.cipher
    data.hash data.keypair] in Hparse.
  rewrite (get_func_Some _ _ _ _ Hpattern Tpattern),
    (get_func_Some _ _ _ _ Hdh Tdh), (get_func_Some _ _ _ _ Hcipher Tcipher),
    (get_func_Some _ _ _ _ Hhash Thash),
    (get_func_Some _ _ _ _ Hkeypair Tkeypair) in Hparse.
  eexists. split.
  - apply (init_Ok_intro name psks _ _ pattern Hlen Hparse Hnew).
    now apply psk_checks_accepted.
  - repeat split.
Qed.

(** A name that the parser accepts has five segments at least. *)
Lemma parse_Ok_segments (name : bytes) (text : str)
    (r : mapped_data.t * list str) :
  decode name = Some text ->
  _parse_protocol_name name = Ok r ->
  exists s1 s2 s3 s4 extra,
    split (ord "_") text = lit "Noise" :: s1 :: s2 :: s3 :: s4 :: extra.
Proof.
  intros Hdecode. unfold _parse_protocol_name. rewrite Hdecode. cbv zeta.
  destruct (split (ord "_") text) as [|s0 [|s1 segments]];
    cbn [index lookup list_lookup mbind result_bind]; try discriminate.
  - destruct (bool_decide _); discriminate.
  - destruct (bool_decide_reflect (s0 = lit "Noise")) as [->|];
      cbn [negb]; [|discriminate].
    destruct (pattern_and_modifiers s1) as [pattern modifiers].
    destruct segments as [|s2 [|s3 [|s4 extra]]];
      cbn [index lookup list_lookup mbind result_bind]; try discriminate.
    intros _. now exists s1, s2, s3, s4, extra.
Qed.

(** With fewer than five segments, [unpacked[1]] or one of the entries
    of [data] is out of range. *)
Lemma parse_too_few_segments (name : bytes) (text : str) :
  decode name = Some text ->
  head (split (ord "_") text) = Some (lit "Noise") ->
  (length (split (ord "_") text) < 5)%nat ->
  _parse_protocol_name name = Raise IndexError.
Proof.
  intros Hdecode Hhead Hlength.
  destruct (_parse_protocol_name name) as [r|e] eqn:Hparse.
  - destruct (parse_Ok_segments name text r Hdecode Hparse)
      as (s1 & s2 & s3 & s4 & extra & Hsplit).
    rewrite Hsplit in Hlength. simpl in Hlength. lia.
  - revert Hparse. unfold _parse_protocol_name. rewrite Hdecode. cbv zeta.
    destruct (split (ord "_") text) as [|s0 segments]; [discriminate|].
    injection Hhead as ->.
    cbn [index lookup list_lookup mbind result_bind].
    rewrite bool_decide_eq_true_2 by reflexivity. cbn [negb].
    destruct segments as [|s1 segments];
      cbn [index lookup list_lookup mbind result_bind]; [congruence|].
    destruct (pattern_and_modifiers s1) as [pattern modifiers].
    destruct segments as [|s2 [|s3 [|s4 extra]]];
      cbn [index lookup list_lookup mbind result_bind]; try congruence.
    simpl in Hlength. lia.
Qed.

(** C5: an identifier that passes the type, length and prefix checks
    and has fewer than five segments makes the constructor raise
    [IndexError], which is not a [ValueError], the class of the other
    parse and lookup failures. *)
Theorem C5_too_few_segments_raise_IndexError
    (name : bytes) (text : str) (psks : option (list bytes)) :
  len name <= constants.MAX_PROTOCOL_NAME_LEN ->
  decode name = Some text ->
  head (split (ord "_") text) = Some (lit "Noise") ->
  (length (split (ord "_") text) < 5)%nat ->
  __init__ (Bytes name) psks = Raise IndexError
  /\ is_ValueError IndexError = false.
Proof.
  intros Hlen Hdecode Hhead Hlength. split; [|reflexivity].
  rewrite init_stages.
  destruct (Z.gtb_spec (len name) constants.MAX_PROTOCOL_NAME_LEN); [lia|].
  now rewrite (parse_too_few_segments name text Hdecode Hhead Hlength).
Qed.



(** C10: when the second segment is a run of uppercase letters followed
    by [+] and [rest], the modifier list of lines 69-78 is the empty
    string followed by the pieces of [rest] between [+]; the parser
    returns that list with the registry entries whenever the name has
    five segments, and every descriptor constructed from such a name
    holds it. *)
Theorem C10_plus_behind_the_pattern_name (P rest : str) :
  uppercase P ->
  pattern_and_modifiers (P ++ ord "+" :: rest)
  = (P, [] :: split (ord "+") rest)
  /\ (forall (name : bytes) (text s2 s3 s4 : str) (extra : list str),
        decode name = Some text ->
        split (ord "_") text
        = lit "Noise" :: (P ++ ord "+" :: rest) :: s2 :: s3 :: s4 :: extra ->
        _parse_protocol_name name
        = (mapped ← map_data
                      {| data.pattern := lit "Pattern" ++ P;
                         data.dh := s2;
                         data.cipher := s3;
                         data.hash := s4;
                         data.keypair := s2;
                         data.pattern_modifiers :=
                           [] :: split (ord "+") rest |};
           Ok (mapped, [] :: split (ord "+") rest)))
  /\ (forall (name : bytes) (text : str) (tail : list str)
             (psks : option (list bytes)) (self : NoiseProtocol.t),
        decode name = Some text ->
        split (ord "_") text
        = lit "Noise" :: (P ++ ord "+" :: rest) :: tail ->
        __init__ (Bytes name) psks = Ok self ->
        pattern_modifiers self = [] :: split (ord "+") rest).
Proof.
  intros HP.
  assert (Hmodifiers : pattern_and_modifiers (P ++ ord "+" :: rest)
                       = (P, [] :: split (ord "+") rest)).
  { rewrite (pattern_and_modifiers_spec P (ord "+" :: rest) HP isupper_plus).
    reflexivity. }
  split; [exact Hmodifiers|]. split.
  - intros name text s2 s3 s4 extra Hdecode Hsplit.
    rewrite (parse_segments name text _ s2 s3 s4 extra Hdecode Hsplit).
    now rewrite Hmodifiers.
  - intros name text tail psks self Hdecode Hsplit Hinit.
    destruct (init_Ok name psks self Hinit)
      as (mappings & modifiers & pattern & _ & Hparse & _ & _ & ->).
    destruct (parse_Ok_segments name text _ Hdecode Hparse)
      as (s1 & s2 & s3 & s4 & extra & Hsplit').
    rewrite Hsplit in Hsplit'. injection Hsplit' as <- ->.
    rewrite (parse_segments name text _ s2 s3 s4 extra Hdecode Hsplit)
      in Hparse.
    rewrite Hmodifiers in Hparse.
    destruct (map_data _) as [mapped|e]; [|discriminate].
    cbn [mbind result_bind] in Hparse. now injection Hparse as _ <-.
Qed.

End ResolverClaims.

Section PskClaims.
Context `{Unicode, constants.t, functions.t, patterns.t, state.t}.

(** The PSK list enters the constructor at line 37: up to there a call
    goes as the call without PSKs. *)
Lemma init_with_psks (name : bytes) (psks : option (list bytes))
    (self0 : NoiseProtocol.t) :
  __init__ (Bytes name) None = Ok self0 ->
  __init__ (Bytes name) psks
  = (_ ← psk_checks (NoiseProtocol.pattern self0) psks;
     Ok (set_psks psks self0)).
Proof.
  intros Hinit.
  destruct (init_Ok name None self0 Hinit)
    as (mappings & modifiers & pattern & Hlen & Hparse & Hnew & _ & ->).
  rewrite init_stages.
  destruct (Z.gtb_spec (len name) constants.MAX_PROTOCOL_NAME_LEN); [lia|].
  rewrite Hparse. cbn [mbind result_bind]. rewrite Hnew. reflexivity.
Qed.

Lemma existsb_wrong_length (l : list bytes) :
  existsb (fun psk => negb (len psk =? 32)) l
  = negb (forallb (fun psk => len psk =? 32) l).
Proof.
  induction l as [|psk l IH]; [reflexivity|].
  simpl. rewrite IH. now destruct (len psk =? 32).
Qed.

(** Lines 40-44 in one: the length of every PSK first, the count then. *)
Lemma psk_checks_cons (pattern : patterns.Pattern) (psk : bytes)
    (l : list bytes) :
  psk_checks pattern (Some (psk :: l))
  = if forallb (fun psk => len psk =? 32) (psk :: l)
    then if Z.of_nat (length (psk :: l)) =? patterns.psk_count pattern
         then Ok tt
         else Raise (ValueError
                       (BadPskCount (patterns.psk_count pattern)
                                    (Z.of_nat (length (psk :: l)))))
    else Raise (ValueError InvalidPskLength).
Proof.
  unfold psk_checks, check_psks.
  change (truthy (Some (psk :: l))) with true. cbv iota.
  change (default [] (Some (psk :: l))) with (psk :: l).
  rewrite existsb_wrong_length.
  destruct (forallb _ (psk :: l)); [|reflexivity].
  cbn [negb]. now destruct (_ =? _).
Qed.

(** C3, as amended: on a name that resolves, [is_psk_handshake] is true
    exactly when the caller gave a PSK list that is not empty; then a
    PSK that is not of 32 bytes makes construction fail with the length
    error, whose message is fixed and tells neither the entry nor its
    length, and, when every PSK is of 32 bytes, a list whose length is
    not the pattern's [psk_count] makes it fail with the count error,
    which reports the required and the given count; with no list or an
    empty one nothing is checked and [psks] stays as it was given. *)
Theorem C3_psk_mode_and_checks
    (name : bytes) (self0 : NoiseProtocol.t) :
  __init__ (Bytes name) None = Ok self0 ->
  (forall (psks : option (list bytes)) (self : NoiseProtocol.t),
      __init__ (Bytes name) psks = Ok self ->
      NoiseProtocol.psks self = psks
      /\ (is_psk_handshake self = true
          <-> exists psk l, psks = Some (psk :: l)))
  /\ (forall psk l,
        Exists (fun psk => len psk <> 32) (psk :: l) ->
        __init__ (Bytes name) (Some (psk :: l))
        = Raise (ValueError InvalidPskLength))
  /\ (forall psk l,
        Forall (fun psk => len psk = 32) (psk :: l) ->
        Z.of_nat (length (psk :: l))
        <> patterns.psk_count (NoiseProtocol.pattern self0) ->
        __init__ (Bytes name) (Some (psk :: l))
        = Raise (ValueError
                   (BadPskCount
                      (patterns.psk_count (NoiseProtocol.pattern self0))
                      (Z.of_nat (length (psk :: l))))))
  /\ (forall psks,
        psks = None \/ psks = Some [] ->
        __init__ (Bytes name) psks = Ok (set_psks psks self0)
        /\ is_psk_handshake (set_psks psks self0) = false
        /\ NoiseProtocol.psks (set_psks psks self0) = psks).
Proof.
  intros Hinit. repeat apply conj.
  - intros psks self. rewrite (init_with_psks name psks self0 Hinit).
    destruct (psk_checks _ psks) as [[]|e]; [|discriminate].
    intros [= <-]. split; [reflexivity|].
    destruct psks as [[|psk l]|]; cbn.
    + split; [discriminate|]. now intros (psk & l & [=]).
    + split; [|reflexivity]. intros _. now exists psk, l.
    + split; [discriminate|]. now intros (psk & l & [=]).
  - intros psk l Hwrong.
    rewrite (init_with_psks name _ self0 Hinit), psk_checks_cons.
    destruct (forallb _ (psk :: l)) eqn:Hall; [|reflexivity].
    rewrite forallb_forall in Hall. apply Exists_exists in Hwrong.
    destruct Hwrong as (x & Hin & Hx). apply list_elem_of_In in Hin.
    specialize (Hall x Hin). apply Z.eqb_eq in Hall. contradiction.
  - intros psk l Hall Hcount.
    rewrite (init_with_psks name _ self0 Hinit), psk_checks_cons.
    replace (forallb _ (psk :: l)) with true.
    + now destruct (Z.eqb_spec (Z.of_nat (length (psk :: l)))
                      (patterns.psk_count (NoiseProtocol.pattern self0))).
    + symmetry. apply forallb_forall. intros x Hin.
      rewrite Forall_forall in Hall. apply list_elem_of_In in Hin.
      apply Z.eqb_eq. now apply Hall.
  - intros psks Hnone.
    rewrite (init_with_psks name psks self0 Hinit).
    now destruct Hnone as [-> | ->].
Qed.

(** C4, as amended: on a name that resolves, a PSK list that is not
    empty and whose length is not the pattern's [psk_count] makes
    construction fail with the count error when every PSK is of 32
    bytes, and with the length error when one is not: the lengths are
    checked before the count. *)
Theorem C4_count_is_checked_behind_the_lengths
    (name : bytes) (self0 : NoiseProtocol.t) (psk : bytes)
    (l : list bytes) :
  __init__ (Bytes name) None = Ok self0 ->
  Z.of_nat (length (psk :: l))
  <> patterns.psk_count (NoiseProtocol.pattern self0) ->
  __init__ (Bytes name) (Some (psk :: l))
  = if forallb (fun psk => len psk =? 32) (psk :: l)
    then Raise (ValueError
                  (BadPskCount
                     (patterns.psk_count (NoiseProtocol.pattern self0))
                     (Z.of_nat (length (psk :: l)))))
    else Raise (ValueError InvalidPskLength).
Proof.
  intros Hinit Hcount.
  rewrite (init_with_psks name _ self0 Hinit), psk_checks_cons.
  destruct (forallb _ (psk :: l)); [|reflexivity].
  now destruct (Z.eqb_spec (Z.of_nat (length (psk :: l)))
                  (patterns.psk_count (NoiseProtocol.pattern self0))).
Qed.

End PskClaims.

Section FinalizerClaims.
Context `{Unicode, constants.t, functions.t, patterns.t, state.t}.

Local Ltac run_handshake_done :=
  unfold handshake_done, parse_protocol_name_of_self, seq, read, eval,
    assign, ret, del, getattr.

(** On a descriptor that the engine has completed nothing raises. *)
Lemma handshake_done_completed (self : NoiseProtocol.t)
    (hs : state.HandshakeState) (ss : state.SymmetricState)
    (ce cd : constants.container state.CipherState) :
  completed self hs ss ce cd ->
  handshake_done self
  = (Ok tt, finalized (state.initiator hs) (state.h ss) self).
Proof.
  intros (Hhs & Hss & Hce & Hcd). run_handshake_done. unfold finalized.
  rewrite Hhs. cbn.
  destruct (patterns.one_way (NoiseProtocol.pattern self)).
  - destruct (state.initiator hs); cbn.
    + rewrite Hcd. cbn. now rewrite Hss.
    + rewrite Hce. cbn. now rewrite Hss.
  - cbn. now rewrite Hss.
Qed.

(** No call assigns [one_way], [symmetric_state] or [pattern], and a
    call that assigns [handshake_hash] takes it from the symmetric
    state. *)
Lemma after_call (c : call) (self : NoiseProtocol.t) :
  one_way (after c self) = one_way self
  /\ symmetric_state (after c self) = symmetric_state self
  /\ NoiseProtocol.pattern (after c self) = NoiseProtocol.pattern self
  /\ (handshake_hash (after c self) = handshake_hash self
      \/ exists ss, symmetric_state self = constants.Object ss
                    /\ handshake_hash (after c self) = Some (state.h ss)).
Proof.
  destruct c; unfold after; run_handshake_done; cbn;
    [|repeat split; now left].
  destruct (handshake_state self) as [|hs]; cbn;
    [repeat split; now left|].
  destruct (patterns.one_way (NoiseProtocol.pattern self)); cbn;
    [destruct (state.initiator hs); cbn;
     [destruct (cipher_state_decrypt self); cbn
     |destruct (cipher_state_encrypt self); cbn]|];
    try (repeat split; now left);
    destruct (symmetric_state self) as [|ss] eqn:Hss; cbn;
    repeat split;
    first [ assumption | left; reflexivity | right; now exists ss ].
Qed.

Lemma after_all_one_way (calls : list call) (self : NoiseProtocol.t) :
  one_way (after_all calls self) = one_way self.
Proof.
  revert self. induction calls as [|c calls IH]; intros self;
    [reflexivity|].
  unfold after_all in *. cbn [fold_left]. rewrite IH.
  apply after_call.
Qed.

Lemma after_all_pattern (calls : list call) (self : NoiseProtocol.t) :
  NoiseProtocol.pattern (after_all calls self) = NoiseProtocol.pattern self.
Proof.
  revert self. induction calls as [|c calls IH]; intros self;
    [reflexivity|].
  unfold after_all in *. cbn [fold_left]. rewrite IH.
  apply after_call.
Qed.

(** Once [handshake_hash] is the hash of the symmetric state it stays
    so through every call. *)
Lemma after_all_handshake_hash (calls : list call)
    (self : NoiseProtocol.t) (ss : state.SymmetricState) :
  symmetric_state self = constants.Object ss ->
  handshake_hash self = Some (state.h ss) ->
  handshake_hash (after_all calls self) = Some (state.h ss).
Proof.
  revert self. induction calls as [|c calls IH]; intros self Hss Hhash;
    [exact Hhash|].
  unfold after_all in *. cbn [fold_left].
  destruct (after_call c self) as (_ & Hss' & _ & Hhash').
  apply IH; [now rewrite Hss'|].
  destruct Hhash' as [->|(ss' & Hss'' & ->)]; [exact Hhash|].
  rewrite Hss in Hss''. now injection Hss'' as ->.
Qed.

(** C2: on a descriptor over a one-way pattern that the engine has
    completed, [handshake_done] returns and leaves one of the two
    cipher-state attributes, chosen by the role in the handshake state
    alone: the initiator keeps [cipher_state_encrypt] and loses
    [cipher_state_decrypt], the responder keeps [cipher_state_decrypt]
    and loses [cipher_state_encrypt]; reading the lost one raises
    [AttributeError], which is not of the [ValueError] class of the
    errors of construction. *)
Theorem C2_one_way_leaves_one_cipher_state
    (self : NoiseProtocol.t)
    (hs : state.HandshakeState) (ss : state.SymmetricState)
    (ce cd : constants.container state.CipherState) :
  patterns.one_way (NoiseProtocol.pattern self) = true ->
  completed self hs ss ce cd ->
  exists self' : NoiseProtocol.t,
    handshake_done self = (Ok tt, self')
    /\ (if state.initiator hs
        then cipher_state_encrypt self' = Some ce
             /\ cipher_state_decrypt self' = None
             /\ read_slot cipher_state_encrypt "cipher_state_encrypt" self'
                = (Ok ce, self')
             /\ read_slot cipher_state_decrypt "cipher_state_decrypt" self'
                = (Raise (AttributeError "cipher_state_decrypt"), self')
        else cipher_state_decrypt self' = Some cd
             /\ cipher_state_encrypt self' = None
             /\ read_slot cipher_state_decrypt "cipher_state_decrypt" self'
                = (Ok cd, self')
             /\ read_slot cipher_state_encrypt "cipher_state_encrypt" self'
                = (Raise (AttributeError "cipher_state_encrypt"), self'))
    /\ (forall attribute, is_ValueError (AttributeError attribute) = false).
Proof.
  intros Hone_way Hcompleted.
  exists (finalized (state.initiator hs) (state.h ss) self).
  split; [now apply (handshake_done_completed self hs ss ce cd)|].
  split; [|reflexivity].
  destruct Hcompleted as (_ & _ & Hce & Hcd).
  unfold finalized, read_slot. cbn. rewrite Hone_way.
  destruct (state.initiator hs); cbn; rewrite ?Hce, ?Hcd; now repeat split.
Qed.

(** C6: what the code does where the claim asks for the classification
    of the pattern.  Line 54 assigns [False] to [one_way] and no method
    assigns it again, while the pattern keeps its own [one_way]: on
    every constructed descriptor the attribute is false, and through
    the completion of the handshake and every sequence of calls, the
    finalization included, it stays false and the classification of
    the pattern stays what it was.  On a one-way pattern the attribute
    so differs from the classification behind construction and behind
    finalization. *)
Theorem C6_one_way_attribute_is_false
    (name : bytes) (psks : option (list bytes)) (self : NoiseProtocol.t) :
  __init__ (Bytes name) psks = Ok self ->
  one_way self = false
  /\ (forall hs ss c1 c2 calls,
        one_way (after_all calls (engine_completes hs ss c1 c2 self))
        = false
        /\ patterns.one_way
             (NoiseProtocol.pattern
                (after_all calls (engine_completes hs ss c1 c2 self)))
           = patterns.one_way (NoiseProtocol.pattern self)).
Proof.
  intros Hinit.
  destruct (init_Ok name psks self Hinit)
    as (mappings & modifiers & pattern & _ & _ & _ & _ & ->).
  split; [reflexivity|].
  intros hs ss c1 c2 calls.
  now rewrite after_all_one_way, after_all_pattern.
Qed.

(** C7: on a descriptor that the engine has completed, [handshake_done]
    returns, [initiator] is then the role of the handshake state and
    [handshake_hash] the transcript hash [h] of the symmetric state;
    [handshake_hash] stays so through every further call of a method of
    the class. *)
Theorem C7_role_and_transcript_hash
    (self : NoiseProtocol.t)
    (hs : state.HandshakeState) (ss : state.SymmetricState)
    (ce cd : constants.container state.CipherState) :
  completed self hs ss ce cd ->
  exists self' : NoiseProtocol.t,
    handshake_done self = (Ok tt, self')
    /\ initiator self' = Some (state.initiator hs)
    /\ handshake_hash self' = Some (state.h ss)
    /\ (forall calls : list call,
          handshake_hash (after_all calls self') = Some (state.h ss)).
Proof.
  intros Hcompleted.
  exists (finalized (state.initiator hs) (state.h ss) self).
  split; [now apply (handshake_done_completed self hs ss ce cd)|].
  destruct Hcompleted as (_ & Hss & _ & _).
  assert (Hkept : symmetric_state
                    (finalized (state.initiator hs) (state.h ss) self)
                  = constants.Object ss).
  { unfold finalized. cbn.
    now destruct (patterns.one_way _), (state.initiator hs). }
  assert (Hhash : handshake_hash
                    (finalized (state.initiator hs) (state.h ss) self)
                  = Some (state.h ss)) by reflexivity.
  repeat split.
  - unfold finalized. cbn.
    now destruct (patterns.one_way _), (state.initiator hs).
  - intros calls. now apply after_all_handshake_hash.
Qed.

(** C8, as amended: on a descriptor that the engine has completed, a
    second call of [handshake_done] behind the first raises
    [AttributeError] when the pattern is one-way, at the [del] of the
    attribute that the first call has removed, and leaves the
    descriptor as it was; when the pattern is not one-way the second
    call returns as the first did and leaves the descriptor as it
    was. *)
Theorem C8_second_finalization
    (self : NoiseProtocol.t)
    (hs : state.HandshakeState) (ss : state.SymmetricState)
    (ce cd : constants.container state.CipherState) :
  completed self hs ss ce cd ->
  exists self' : NoiseProtocol.t,
    handshake_done self = (Ok tt, self')
    /\ handshake_done self'
       = if patterns.one_way (NoiseProtocol.pattern self)
         then (Raise (AttributeError
                        (if state.initiator hs
                         then "cipher_state_decrypt"
                         else "cipher_state_encrypt")), self')
         else (Ok tt, self').
Proof.
  intros Hcompleted.
  exists (finalized (state.initiator hs) (state.h ss) self).
  split; [now apply (handshake_done_completed self hs ss ce cd)|].
  destruct Hcompleted as (Hhs & Hss & _ & _).
  run_handshake_done. unfold finalized. cbn.
  destruct (patterns.one_way (NoiseProtocol.pattern self)) eqn:Hone_way;
    [destruct (state.initiator hs) eqn:Hrole|];
    cbn; rewrite Hhs; cbn; rewrite Hone_way; cbn;
    rewrite ?Hrole, ?Hss; reflexivity.
Qed.

End FinalizerClaims.

(** ** The claims on the examples *)

Section Examples.
#[local] Existing Instances Sample.unicode Sample.constants
  Sample.functions Sample.patterns Sample.state.

Local Ltac not_in_literal :=
  simpl; rewrite ?not_elem_of_cons; repeat split;
  (discriminate || apply not_elem_of_nil).

(** The examples of the specification. *)
Example XX_resolves :
  exists self : NoiseProtocol.t,
    __init__ (Bytes "Noise_XX_25519_AESGCM_SHA256") None = Ok self
    /\ patterns.patterns_map !! lit "PatternXX"
       = Some (NoiseProtocol.pattern self)
    /\ pattern_modifiers self = []
    /\ functions.dh_map !! lit "25519" = Some (dh_fn self)
    /\ functions.cipher_map !! lit "AESGCM" = Some (cipher_fn self)
    /\ functions.hash_map !! lit "SHA256" = Some (hash_fn self)
    /\ functions.keypair_map !! lit "25519" = Some (keypair_fn self).
Proof. eexists. repeat split. Qed.

(** The second example of the specification, through C1. *)
Lemma C1_witness :
  exists self : NoiseProtocol.t,
    __init__ (Bytes "Noise_IKpsk2_25519_ChaChaPoly_BLAKE2s") None = Ok self
    /\ NoiseProtocol.name self = "Noise_IKpsk2_25519_ChaChaPoly_BLAKE2s"%string
    /\ NoiseProtocol.pattern self
       = {| Sample.one_way := false; Sample.psk_count := 1;
            Sample.modifiers := [lit "psk2"] |}
    /\ pattern_modifiers self = [lit "psk2"]
    /\ dh_fn self = "DH 25519"%string
    /\ cipher_fn self = "Cipher ChaChaPoly"%string
    /\ hash_fn self = "Hash BLAKE2s"%string
    /\ keypair_fn self = "KeyPair 25519"%string.
Proof.
  apply (@C1_construction_resolves_the_roles
           Sample.unicode Sample.constants Sample.functions
           Sample.patterns Sample.state
           "Noise_IKpsk2_25519_ChaChaPoly_BLAKE2s"
           (lit "IK") (lit "psk2") (lit "25519") (lit "ChaChaPoly")
           (lit "BLAKE2s") None
           {| Sample.one_way := false; Sample.psk_count := 0;
              Sample.modifiers := [] |}
           "DH 25519"%string "Cipher ChaChaPoly"%string
           "Hash BLAKE2s"%string "KeyPair 25519"%string
           {| Sample.one_way := false; Sample.psk_count := 1;
              Sample.modifiers := [lit "psk2"] |});
    try reflexivity; first [not_in_literal | repeat constructor].
Defined.

(** C1, as it is stated, fails on an identifier of its form that is
    longer than the bound: the pattern name is [XX], the modifiers are
    [psk0] seventy-one times, which the pattern accepts, and every key
    has its entry. *)
Lemma C1_long_identifier_is_refused :
  decode Sample.long_identifier
  = Some (lit "Noise_" ++ lit "XX" ++ lit Sample.long_modifiers ++ lit "_"
            ++ lit "25519" ++ lit "_" ++ lit "AESGCM" ++ lit "_"
            ++ lit "SHA256")
  /\ uppercase (lit "XX")
  /\ no_uppercase_ahead (lit Sample.long_modifiers)
  /\ (exists cls pattern,
        patterns.patterns_map !! lit "PatternXX" = Some cls
        /\ new_pattern cls (split (ord "+") (lit Sample.long_modifiers))
           = Ok pattern)
  /\ is_Some (functions.dh_map !! lit "25519")
  /\ is_Some (functions.cipher_map !! lit "AESGCM")
  /\ is_Some (functions.hash_map !! lit "SHA256")
  /\ is_Some (functions.keypair_map !! lit "25519")
  /\ len Sample.long_identifier = 382
  /\ __init__ (Bytes Sample.long_identifier) None
     = Raise (ValueError (NameTooLong 255)).
Proof.
  split; [vm_compute; reflexivity|].
  split; [repeat constructor|].
  split; [reflexivity|].
  split; [eexists; eexists; split; vm_compute; reflexivity|].
  repeat (split; [vm_compute; eexists; reflexivity|]).
  split; vm_compute; reflexivity.
Qed.

(** The initiator of the one-way pattern [N]. *)
Lemma C2_witness :
  exists self : NoiseProtocol.t,
    Sample.session "Noise_N_25519_AESGCM_SHA256" true = Ok self
    /\ exists self' : NoiseProtocol.t,
         handshake_done self = (Ok tt, self')
         /\ (cipher_state_encrypt self' = Some (constants.Object "c1"%string)
             /\ cipher_state_decrypt self' = None
             /\ read_slot cipher_state_encrypt "cipher_state_encrypt" self'
                = (Ok (constants.Object "c1"%string), self')
             /\ read_slot cipher_state_decrypt "cipher_state_decrypt" self'
                = (Raise (AttributeError "cipher_state_decrypt"), self'))
         /\ (forall attribute,
               is_ValueError (AttributeError attribute) = false).
Proof.
  eexists. split; [reflexivity|].
  apply (@C2_one_way_leaves_one_cipher_state
           Sample.functions Sample.patterns Sample.state
           _ true "transcript hash"%string
           (constants.Object "c1"%string) (constants.Object "c2"%string));
    [reflexivity|repeat split].
Defined.

(** The pattern [XX] with the modifier [psk0], which asks for one PSK. *)
Lemma C3_witness :
  exists self0 : NoiseProtocol.t,
    __init__ (Bytes "Noise_XXpsk0_25519_AESGCM_SHA256") None = Ok self0
    /\ patterns.psk_count (NoiseProtocol.pattern self0) = 1
    /\ (exists self,
          __init__ (Bytes "Noise_XXpsk0_25519_AESGCM_SHA256")
            (Some [Sample.copies 32 "k"]) = Ok self
          /\ is_psk_handshake self = true)
    /\ __init__ (Bytes "Noise_XXpsk0_25519_AESGCM_SHA256")
         (Some [Sample.copies 32 "k"; Sample.copies 5 "k"])
       = Raise (ValueError InvalidPskLength)
    /\ __init__ (Bytes "Noise_XXpsk0_25519_AESGCM_SHA256")
         (Some [Sample.copies 32 "k"; Sample.copies 32 "k"])
       = Raise (ValueError (BadPskCount 1 2))
    /\ __init__ (Bytes "Noise_XXpsk0_25519_AESGCM_SHA256") (Some [])
       = Ok (set_psks (Some []) self0).
Proof.
  eexists. split; [reflexivity|].
  match goal with
  | |- _ /\ ?rest =>
      destruct (@C3_psk_mode_and_checks
                  Sample.unicode Sample.constants Sample.functions
                  Sample.patterns Sample.state
                  "Noise_XXpsk0_25519_AESGCM_SHA256" _ eq_refl)
        as (Hmode & Hlength & Hcount & Hnone)
  end.
  split; [reflexivity|].
  split; [eexists; split; [reflexivity|];
          now apply (Hmode (Some [Sample.copies 32 "k"])); eexists; eexists|].
  split; [apply Hlength; apply Exists_cons_tl, Exists_cons_hd;
          vm_compute; discriminate|].
  split; [apply (Hcount (Sample.copies 32 "k") [Sample.copies 32 "k"]);
          [repeat constructor|vm_compute; discriminate]|].
  apply (Hnone (Some [])). now right.
Defined.

(** C3, as it is stated, fails on the message of the length error: a
    PSK of 31 bytes and one of 33 bytes raise the same exception, with
    the same message, which so tells neither length. *)
Lemma C3_length_error_is_the_same_for_every_length :
  len (Sample.copies 31 "k") = 31
  /\ len (Sample.copies 33 "k") = 33
  /\ __init__ (Bytes "Noise_XXpsk0_25519_AESGCM_SHA256")
       (Some [Sample.copies 31 "k"])
     = Raise (ValueError InvalidPskLength)
  /\ __init__ (Bytes "Noise_XXpsk0_25519_AESGCM_SHA256")
       (Some [Sample.copies 33 "k"])
     = Raise (ValueError InvalidPskLength).
Proof. repeat split. Qed.

(** One PSK of 32 bytes for the pattern [XX], which asks for none. *)
Lemma C4_witness :
  exists self0 : NoiseProtocol.t,
    __init__ (Bytes "Noise_XX_25519_AESGCM_SHA256") None = Ok self0
    /\ __init__ (Bytes "Noise_XX_25519_AESGCM_SHA256")
         (Some [Sample.copies 32 "k"])
       = Raise (ValueError (BadPskCount 0 1)).
Proof.
  eexists. split; [reflexivity|].
  apply (@C4_count_is_checked_behind_the_lengths
           Sample.unicode Sample.constants Sample.functions
           Sample.patterns Sample.state
           "Noise_XX_25519_AESGCM_SHA256" _ (Sample.copies 32 "k") []
           eq_refl).
  vm_compute. discriminate.
Defined.

(** C4, as it is stated, fails on a list whose length is not the
    [psk_count] of the pattern and that holds a PSK of 31 bytes: the
    error is the length error, not the count error. *)
Lemma C4_length_error_comes_first :
  (exists self0 : NoiseProtocol.t,
      __init__ (Bytes "Noise_XX_25519_AESGCM_SHA256") None = Ok self0
      /\ patterns.psk_count (NoiseProtocol.pattern self0) = 0)
  /\ len (Sample.copies 31 "k") = 31
  /\ __init__ (Bytes "Noise_XX_25519_AESGCM_SHA256")
       (Some [Sample.copies 31 "k"])
     = Raise (ValueError InvalidPskLength)
  /\ InvalidPskLength <> BadPskCount 0 1.
Proof.
  split; [eexists; split; reflexivity|]. repeat split. discriminate.
Qed.

(** An identifier of three segments. *)
Lemma C5_witness :
  __init__ (Bytes "Noise_XX_25519") None = Raise IndexError
  /\ is_ValueError IndexError = false.
Proof.
  apply (@C5_too_few_segments_raise_IndexError
           Sample.unicode Sample.constants Sample.functions
           Sample.patterns Sample.state
           "Noise_XX_25519" (lit "Noise_XX_25519") None).
  - vm_compute. discriminate.
  - reflexivity.
  - reflexivity.
  - vm_compute. lia.
Defined.

(** The one-way pattern [N], through construction and finalization:
    the pattern is classified one-way and the attribute is false. *)
Lemma C6_witness :
  exists self : NoiseProtocol.t,
    __init__ (Bytes "Noise_N_25519_AESGCM_SHA256") None = Ok self
    /\ patterns.one_way (NoiseProtocol.pattern self) = true
    /\ one_way self = false
    /\ one_way (snd (handshake_done
                       (engine_completes (true : state.HandshakeState)
                          ("transcript hash"%string : state.SymmetricState)
                          ("c1"%string : state.CipherState)
                          ("c2"%string : state.CipherState) self)))
       = false
    /\ patterns.one_way
         (NoiseProtocol.pattern
            (snd (handshake_done
                    (engine_completes (true : state.HandshakeState)
                       ("transcript hash"%string : state.SymmetricState)
                       ("c1"%string : state.CipherState)
                       ("c2"%string : state.CipherState) self))))
       = true.
Proof.
  eexists. split; [reflexivity|].
  destruct (@C6_one_way_attribute_is_false
              Sample.unicode Sample.constants Sample.functions
              Sample.patterns Sample.state
              "Noise_N_25519_AESGCM_SHA256" None _ eq_refl)
    as (Hfalse & Hcalls).
  split; [reflexivity|]. split; [exact Hfalse|].
  exact (Hcalls true "transcript hash"%string "c1"%string "c2"%string
           [call_handshake_done]).
Defined.

(** The responder of the pattern [XX]. *)
Lemma C7_witness :
  exists self : NoiseProtocol.t,
    Sample.session "Noise_XX_25519_AESGCM_SHA256" false = Ok self
    /\ exists self' : NoiseProtocol.t,
         handshake_done self = (Ok tt, self')
         /\ initiator self' = Some false
         /\ handshake_hash self' = Some "transcript hash"%string
         /\ (forall calls : list call,
               handshake_hash (after_all calls self')
               = Some "transcript hash"%string).
Proof.
  eexists. split; [reflexivity|].
  apply (@C7_role_and_transcript_hash
           Sample.unicode Sample.functions Sample.patterns Sample.state
           _ false "transcript hash"%string
           (constants.Object "c1"%string) (constants.Object "c2"%string)).
  repeat split.
Defined.

(** The responder of the one-way pattern [N], finalized twice. *)
Lemma C8_witness :
  exists self : NoiseProtocol.t,
    Sample.session "Noise_N_25519_AESGCM_SHA256" false = Ok self
    /\ exists self' : NoiseProtocol.t,
         handshake_done self = (Ok tt, self')
         /\ handshake_done self'
            = (Raise (AttributeError "cipher_state_encrypt"), self').
Proof.
  eexists. split; [reflexivity|].
  match goal with
  | |- exists self', handshake_done ?self = _ /\ _ =>
      exact (@C8_second_finalization
               Sample.functions Sample.patterns Sample.state
               self false "transcript hash"%string
               (constants.Object "c1"%string) (constants.Object "c2"%string)
               (conj eq_refl (conj eq_refl (conj eq_refl eq_refl))))
  end.
Defined.

(** C8, as it is stated, fails on the pattern [XX], which is not
    one-way: the second finalization returns as the first did. *)
Lemma C8_second_finalization_is_not_refused :
  exists self self' : NoiseProtocol.t,
    Sample.session "Noise_XX_25519_AESGCM_SHA256" true = Ok self
    /\ patterns.one_way (NoiseProtocol.pattern self) = false
    /\ handshake_done self = (Ok tt, self')
    /\ handshake_done self' = (Ok tt, self').
Proof. eexists. eexists. repeat split. Qed.



(** The segment [XX+fallback]. *)
Lemma C10_witness :
  pattern_and_modifiers (lit "XX+fallback") = (lit "XX", [[]; lit "fallback"])
  /\ (exists mapped : mapped_data.t,
        _parse_protocol_name "Noise_XX+fallback_25519_AESGCM_SHA256"
        = Ok (mapped, [[]; lit "fallback"])).
Proof.
  destruct (@C10_plus_behind_the_pattern_name
              Sample.unicode Sample.constants Sample.functions
              Sample.patterns Sample.state
              (lit "XX") (lit "fallback"))
    as (Hmodifiers & Hparse & _).
  - repeat constructor.
  - split; [exact Hmodifiers|].
    eexists.
    rewrite (Hparse "Noise_XX+fallback_25519_AESGCM_SHA256"
               (lit "Noise_XX+fallback_25519_AESGCM_SHA256")
               (lit "25519") (lit "AESGCM") (lit "SHA256") []
               eq_refl eq_refl).
    reflexivity.
Defined.

End Examples.

(** ** Further properties of the resolver *)

Section SplitAndJoin.

(** Joining the pieces of a split gives the string back. *)
Lemma join_split (sep : char) (s : str) : join sep (split sep s) = s.
Proof.
  induction s as [|c s IH]; [reflexivity|].
  cbn [split]. destruct (N.eqb_spec c sep) as [->|Hc].
  - pose proof (split_not_nil sep s) as Hnil.
    cbn [join]. destruct (split sep s) as [|piece pieces]; [congruence|].
    now rewrite IH.
  - pose proof (split_not_nil sep s) as Hnil.
    destruct (split sep s) as [|piece pieces]; [congruence|].
    cbn [join] in *. destruct pieces; cbn [app]; now rewrite IH.
Qed.

(** No piece of a split holds the separator. *)
Lemma split_pieces (sep : char) (s : str) :
  Forall (fun piece => sep ∉ piece) (split sep s).
Proof.
  induction s as [|c s IH]; cbn [split].
  - repeat constructor. apply not_elem_of_nil.
  - destruct (N.eqb_spec c sep) as [->|Hc].
    + constructor; [apply not_elem_of_nil|exact IH].
    + destruct (split sep s) as [|piece pieces].
      * repeat constructor. rewrite not_elem_of_cons. split; [congruence|].
        apply not_elem_of_nil.
      * inversion IH as [|? ? Hpiece Hpieces]; subst.
        constructor; [|exact Hpieces].
        rewrite not_elem_of_cons. split; [congruence|exact Hpiece].
Qed.

End SplitAndJoin.

Section ResolverFacts.
Context `{Unicode, constants.t, functions.t, patterns.t, state.t}.

(** The loop splits every segment into a run of uppercase letters and
    a rest that does not go on with one. *)
Lemma scan_decompose (s pattern : str) :
  exists P rest,
    s = P ++ rest /\ uppercase P /\ no_uppercase_ahead rest
    /\ scan pattern s
       = (pattern ++ P, match rest with [] => None | _ :: _ => Some rest end).
Proof.
  revert pattern. induction s as [|c s IH]; intros pattern.
  - exists [], []. cbn. rewrite app_nil_r. repeat split. constructor.
  - cbn [scan]. destruct (isupper c) eqn:Hc.
    + destruct (IH (pattern ++ [c])) as (P & rest & -> & HP & Hrest & ->).
      exists (c :: P), rest. rewrite <- app_assoc.
      repeat split; [now constructor|exact Hrest].
    + exists [], (c :: s). rewrite app_nil_r.
      repeat split; [constructor|exact Hc].
Qed.

(** X1: lines 69-78 lose nothing of the second segment.  For every
    segment, the pattern name is a run of uppercase letters, the
    pattern name followed by the modifiers joined with [+] is the
    segment again, no modifier holds a [+], what follows the pattern
    name does not begin with an uppercase letter, and there is no
    modifier exactly when the whole segment is uppercase. *)
Theorem X1_segment_is_pattern_name_and_modifiers (s : str) :
  uppercase (fst (pattern_and_modifiers s))
  /\ fst (pattern_and_modifiers s)
     ++ join (ord "+") (snd (pattern_and_modifiers s)) = s
  /\ Forall (fun modifier => ord "+" ∉ modifier)
       (snd (pattern_and_modifiers s))
  /\ no_uppercase_ahead (join (ord "+") (snd (pattern_and_modifiers s)))
  /\ (snd (pattern_and_modifiers s) = [] <-> uppercase s).
Proof.
  unfold pattern_and_modifiers.
  destruct (scan_decompose s []) as (P & rest & -> & HP & Hrest & ->).
  destruct rest as [|c rest].
  - cbn. rewrite app_nil_r.
    repeat split; intros; first [assumption | reflexivity | constructor].
  - change (truthy (Some (c :: rest))) with true. cbv iota.
    change (default [] (Some (c :: rest))) with (c :: rest).
    cbn [fst snd].
    pose proof (join_split (ord "+") (c :: rest)) as Hjoin.
    pose proof (split_pieces (ord "+") (c :: rest)) as Hpieces.
    pose proof (split_not_nil (ord "+") (c :: rest)) as Hnil.
    rewrite Hjoin.
    repeat split; try assumption.
    + intros Hnone. contradiction.
    + intros Hupper. exfalso. unfold uppercase in Hupper.
      apply Forall_app in Hupper as [_ Hupper].
      apply Forall_cons in Hupper as [Hc _].
      cbn in Hrest. congruence.
Qed.

End ResolverFacts.

(** ** Further properties of the constructor *)

Section ConstructorFacts.
Context `{Unicode, constants.t, functions.t, patterns.t, state.t}.

(** An exception of the parser leaves the constructor as it is. *)
Lemma init_parse_Raise (name : bytes) (psks : option (list bytes))
    (e : exn) :
  len name <= constants.MAX_PROTOCOL_NAME_LEN ->
  _parse_protocol_name name = Raise e ->
  __init__ (Bytes name) psks = Raise e.
Proof.
  intros Hlen Hparse. rewrite init_stages.
  destruct (Z.gtb_spec (len name) constants.MAX_PROTOCOL_NAME_LEN); [lia|].
  now rewrite Hparse.
Qed.

(** The lookup of one role: it gives the entry of the key when there
    is one and it is true, and the error of the role otherwise. *)
Lemma get_func_cases {V} `{Truthy V} (key : string)
    (map_dict : gmap str V) (given : str) :
  (exists f, map_dict !! given = Some f /\ truthy f = true
             /\ truthy (map_dict !! given) = true
             /\ get_func key map_dict given = Ok f)
  \/ (truthy (map_dict !! given) = false
      /\ get_func key map_dict given
         = Raise (ValueError (UnknownMethod key given (dom map_dict)))).
Proof.
  unfold get_func. destruct (map_dict !! given) as [f|] eqn:Hget.
  - change (truthy (Some f)) with (truthy f).
    destruct (truthy f) eqn:Hf; cbn [negb].
    + left. now exists f.
    + now right.
  - now right.
Qed.

(** X2: the checks on the identifier come in a fixed order, before any
    registry is consulted and whatever the PSKs are: an object that is
    not [bytes] is refused; then a name longer than
    [MAX_PROTOCOL_NAME_LEN], whatever its bytes; then a name that is
    not UTF-8, with [UnicodeDecodeError]; then a name whose first
    segment is not exactly [Noise], with the error that carries the
    name. *)
Theorem X2_identifier_checks_in_order (psks : option (list bytes)) :
  (forall type_name : string,
      __init__ (NoBytes type_name) psks
      = Raise (ValueError (NotBytes type_name)))
  /\ (forall name : bytes,
        constants.MAX_PROTOCOL_NAME_LEN < len name ->
        __init__ (Bytes name) psks
        = Raise (ValueError (NameTooLong constants.MAX_PROTOCOL_NAME_LEN)))
  /\ (forall name : bytes,
        len name <= constants.MAX_PROTOCOL_NAME_LEN ->
        decode name = None ->
        __init__ (Bytes name) psks = Raise UnicodeDecodeError)
  /\ (forall (name : bytes) (text : str),
        len name <= constants.MAX_PROTOCOL_NAME_LEN ->
        decode name = Some text ->
        head (split (ord "_") text) <> Some (lit "Noise") ->
        __init__ (Bytes name) psks = Raise (ValueError (BadPrefix name))).
Proof.
  split; [reflexivity|]. split; [intros; now apply init_too_long|]. split.
  - intros name Hlen Hdecode. apply init_parse_Raise; [exact Hlen|].
    unfold _parse_protocol_name. now rewrite Hdecode.
  - intros name text Hlen Hdecode Hhead.
    apply init_parse_Raise; [exact Hlen|].
    unfold _parse_protocol_name. rewrite Hdecode. cbv zeta.
    pose proof (split_not_nil (ord "_") text) as Hnil.
    destruct (split (ord "_") text) as [|s0 segments]; [congruence|].
    cbn [index lookup list_lookup mbind result_bind].
    destruct (bool_decide_reflect (s0 = lit "Noise")) as [->|_];
      [now destruct Hhead|reflexivity].
Qed.


Lemma map_data_Raise (data : data.t) (e : exn) :
  map_data data = Raise e ->
  exists key given known, e = ValueError (UnknownMethod key given known).
Proof.
  unfold map_data.
  destruct (get_func_cases "pattern" patterns.patterns_map
              (data.pattern data)) as [(f0 & _ & _ & _ & ->)|[_ ->]];
    cbn [mbind result_bind]; [|intros [= <-]; now eexists _, _, _].
  destruct (get_func_cases "dh" functions.dh_map (data.dh data))
    as [(f1 & _ & _ & _ & ->)|[_ ->]];
    cbn [mbind result_bind]; [|intros [= <-]; now eexists _, _, _].
  destruct (get_func_cases "cipher" functions.cipher_map (data.cipher data))
    as [(f2 & _ & _ & _ & ->)|[_ ->]];
    cbn [mbind result_bind]; [|intros [= <-]; now eexists _, _, _].
  destruct (get_func_cases "hash" functions.hash_map (data.hash data))
    as [(f3 & _ & _ & _ & ->)|[_ ->]];
    cbn [mbind result_bind]; [|intros [= <-]; now eexists _, _, _].
  destruct (get_func_cases "keypair" functions.keypair_map
              (data.keypair data)) as [(f4 & _ & _ & _ & ->)|[_ ->]];
    cbn [mbind result_bind]; [discriminate|intros [= <-]; now eexists _, _, _].
Qed.

Lemma map_data_Ok (data : data.t) (mapped : mapped_data.t) :
  map_data data = Ok mapped ->
  patterns.patterns_map !! data.pattern data
  = Some (mapped_data.pattern mapped)
  /\ functions.dh_map !! data.dh data = Some (mapped_data.dh mapped)
  /\ functions.cipher_map !! data.cipher data
     = Some (mapped_data.cipher mapped)
  /\ functions.hash_map !! data.hash data = Some (mapped_data.hash mapped)
  /\ functions.keypair_map !! data.keypair data
     = Some (mapped_data.keypair mapped).
Proof.
  unfold map_data.
  destruct (get_func_cases "pattern" patterns.patterns_map
              (data.pattern data)) as [(f0 & G0 & _ & _ & ->)|[_ ->]];
    cbn [mbind result_bind]; [|discriminate].
  destruct (get_func_cases "dh" functions.dh_map (data.dh data))
    as [(f1 & G1 & _ & _ & ->)|[_ ->]];
    cbn [mbind result_bind]; [|discriminate].
  destruct (get_func_cases "cipher" functions.cipher_map (data.cipher data))
    as [(f2 & G2 & _ & _ & ->)|[_ ->]];
    cbn [mbind result_bind]; [|discriminate].
  destruct (get_func_cases "hash" functions.hash_map (data.hash data))
    as [(f3 & G3 & _ & _ & ->)|[_ ->]];
    cbn [mbind result_bind]; [|discriminate].
  destruct (get_func_cases "keypair" functions.keypair_map
              (data.keypair data)) as [(f4 & G4 & _ & _ & ->)|[_ ->]];
    cbn [mbind result_bind]; [|discriminate].
  now intros [= <-].
Qed.

(** The parser on a name whose first segment is not [Noise]. *)
Lemma parse_bad_prefix (name : bytes) (text : str) :
  decode name = Some text ->
  head (split (ord "_") text) <> Some (lit "Noise") ->
  _parse_protocol_name name = Raise (ValueError (BadPrefix name)).
Proof.
  intros Hdecode Hhead.
  unfold _parse_protocol_name. rewrite Hdecode. cbv zeta.
  pose proof (split_not_nil (ord "_") text) as Hnil.
  destruct (split (ord "_") text) as [|s0 segments]; [congruence|].
  cbn [index lookup list_lookup mbind result_bind].
  destruct (bool_decide_reflect (s0 = lit "Noise")) as [->|_];
    [now destruct Hhead|reflexivity].
Qed.

(** The exceptions of the parser. *)
Lemma parse_Raise (name : bytes) (e : exn) :
  _parse_protocol_name name = Raise e ->
  is_ValueError e = true
  \/ (e = IndexError
      /\ exists text,
           decode name = Some text
           /\ head (split (ord "_") text) = Some (lit "Noise")
           /\ (length (split (ord "_") text) < 5)%nat).
Proof.
  intros Hparse.
  destruct (decode name) as [text|] eqn:Hdecode.
  - destruct (decide (head (split (ord "_") text) = Some (lit "Noise")))
      as [Hhead|Hhead].
    + destruct (lt_dec (length (split (ord "_") text)) 5) as [Hshort|Hlong].
      * rewrite (parse_too_few_segments name text Hdecode Hhead Hshort)
          in Hparse.
        injection Hparse as <-. right. split; [reflexivity|].
        now exists text.
      * destruct (split (ord "_") text)
          as [|s0 [|s1 [|s2 [|s3 [|s4 extra]]]]] eqn:Hsplit;
          cbn in Hlong; try lia.
        injection Hhead as ->.
        rewrite (parse_segments name text s1 s2 s3 s4 extra Hdecode Hsplit)
          in Hparse.
        destruct (pattern_and_modifiers s1) as [pattern modifiers].
        destruct (map_data _) as [mapped|e'] eqn:Hmap; [discriminate|].
        cbn [mbind result_bind] in Hparse. injection Hparse as <-. left.
        now destruct (map_data_Raise _ _ Hmap) as (key & given & known & ->).
    + rewrite (parse_bad_prefix name text Hdecode Hhead) in Hparse.
      injection Hparse as <-. now left.
  - unfold _parse_protocol_name in Hparse. rewrite Hdecode in Hparse.
    injection Hparse as <-. now left.
Qed.

(** X4: the exceptions of the constructor on arguments of the declared
    types.  For every object given as name, and PSKs that are [None] or
    a list of [bytes] objects, an exception that the constructor raises
    is a [ValueError] (the decoding error included), or the
    [IndexError] of a name that decodes, begins with the segment
    [Noise] and has fewer than five segments, or an exception that the
    pattern raised when the modifiers were applied to it.  (A PSK
    argument of another type, such as a number, is outside this
    statement.) *)
Theorem X4_exceptions_of_the_constructor
    (protocol_name : object) (psks : option (list bytes)) (e : exn) :
  __init__ protocol_name psks = Raise e ->
  is_ValueError e = true
  \/ (e = IndexError
      /\ exists name text,
           protocol_name = Bytes name
           /\ decode name = Some text
           /\ head (split (ord "_") text) = Some (lit "Noise")
           /\ (length (split (ord "_") text) < 5)%nat)
  \/ (exists name mappings modifiers,
        protocol_name = Bytes name
        /\ _parse_protocol_name name = Ok (mappings, modifiers)
        /\ modifiers <> []
        /\ patterns.apply_pattern_modifiers
             (patterns.new (mapped_data.pattern mappings)) modifiers
           = Raise e).
Proof.
  destruct protocol_name as [name|type_name];
    [|intros [= <-]; now left].
  rewrite init_stages.
  destruct (len name >? constants.MAX_PROTOCOL_NAME_LEN);
    [intros [= <-]; now left|].
  destruct (_parse_protocol_name name) as [[mappings modifiers]|e']
    eqn:Hparse; cbn [mbind result_bind].
  - destruct (new_pattern _ modifiers) as [pattern|e'] eqn:Hnew;
      cbn [mbind result_bind].
    + unfold psk_checks, check_psks.
      destruct (truthy psks); [|discriminate].
      destruct (existsb _ _); [intros [= <-]; now left|].
      destruct (negb _); [intros [= <-]; now left|discriminate].
    + intros [= <-]. right. right. exists name, mappings, modifiers.
      unfold new_pattern in Hnew.
      destruct modifiers as [|modifier modifiers]; [discriminate|].
      now repeat split.
  - intros [= <-].
    destruct (parse_Raise name e' Hparse) as [He|(-> & text & Htext)].
    + now left.
    + right. left. split; [reflexivity|]. now exists name, text.
Qed.

(** What a result of the parser holds. *)
Lemma parse_Ok_entries (name : bytes) (mappings : mapped_data.t)
    (modifiers : list str) :
  _parse_protocol_name name = Ok (mappings, modifiers) ->
  exists text s1 s2 s3 s4 extra,
    decode name = Some text
    /\ split (ord "_") text = lit "Noise" :: s1 :: s2 :: s3 :: s4 :: extra
    /\ modifiers = snd (pattern_and_modifiers s1)
    /\ patterns.patterns_map
         !! (lit "Pattern" ++ fst (pattern_and_modifiers s1))
       = Some (mapped_data.pattern mappings)
    /\ functions.dh_map !! s2 = Some (mapped_data.dh mappings)
    /\ functions.cipher_map !! s3 = Some (mapped_data.cipher mappings)
    /\ functions.hash_map !! s4 = Some (mapped_data.hash mappings)
    /\ functions.keypair_map !! s2 = Some (mapped_data.keypair mappings).
Proof.
  intros Hparse.
  destruct (decode name) as [text|] eqn:Hdecode;
    [|unfold _parse_protocol_name in Hparse; now rewrite Hdecode in Hparse].
  destruct (parse_Ok_segments name text _ Hdecode Hparse)
    as (s1 & s2 & s3 & s4 & extra & Hsplit).
  exists text, s1, s2, s3, s4, extra.
  rewrite (parse_segments name text s1 s2 s3 s4 extra Hdecode Hsplit)
    in Hparse.
  destruct (pattern_and_modifiers s1) as [pattern modifiers'].
  destruct (map_data _) as [mapped|e] eqn:Hmap; [|discriminate].
  cbn [mbind result_bind] in Hparse. injection Hparse as -> ->.
  apply map_data_Ok in Hmap. cbn in Hmap. now repeat split.
Qed.

(** X5: what a constructed descriptor holds comes from the registries.
    When construction succeeds, the name is within the bound, decodes,
    begins with the segment [Noise] and has five segments at least;
    the modifiers are those of the second segment; the pattern is the
    instance of the registry entry of [Pattern] followed by the pattern
    name, with the modifiers applied when there are any; and [dh_fn],
    [cipher_fn], [hash_fn] and [keypair_fn] are the registry entries of
    the third, fourth, fifth and third segment. *)
Theorem X5_descriptor_comes_from_the_registries
    (name : bytes) (psks : option (list bytes)) (self : NoiseProtocol.t) :
  __init__ (Bytes name) psks = Ok self ->
  NoiseProtocol.name self = name
  /\ len name <= constants.MAX_PROTOCOL_NAME_LEN
  /\ exists text s1 s2 s3 s4 extra cls,
       decode name = Some text
       /\ split (ord "_") text
          = lit "Noise" :: s1 :: s2 :: s3 :: s4 :: extra
       /\ pattern_modifiers self = snd (pattern_and_modifiers s1)
       /\ patterns.patterns_map
            !! (lit "Pattern" ++ fst (pattern_and_modifiers s1))
          = Some cls
       /\ Ok (NoiseProtocol.pattern self)
          = (if truthy (pattern_modifiers self)
             then patterns.apply_pattern_modifiers (patterns.new cls)
                    (pattern_modifiers self)
             else Ok (patterns.new cls))
       /\ functions.dh_map !! s2 = Some (dh_fn self)
       /\ functions.cipher_map !! s3 = Some (cipher_fn self)
       /\ functions.hash_map !! s4 = Some (hash_fn self)
       /\ functions.keypair_map !! s2 = Some (keypair_fn self).
Proof.
  intros Hinit.
  destruct (init_Ok name psks self Hinit)
    as (mappings & modifiers & pattern & Hlen & Hparse & Hnew & _ & ->).
  split; [reflexivity|]. split; [exact Hlen|].
  destruct (parse_Ok_entries name mappings modifiers Hparse)
    as (text & s1 & s2 & s3 & s4 & extra & Hdecode & Hsplit & Hmods
        & Hpattern & Hdh & Hcipher & Hhash & Hkeypair).
  exists text, s1, s2, s3, s4, extra, (mapped_data.pattern mappings).
  cbn. unfold new_pattern in Hnew. now repeat split.
Qed.

(** The PSK checks pass on accepted lists only. *)
Lemma psk_checks_Ok (pattern : patterns.Pattern)
    (psks : option (list bytes)) :
  psk_checks pattern psks = Ok tt -> accepted_psks pattern psks.
Proof.
  destruct psks as [[|psk l]|]; try (intros _; exact I).
  rewrite psk_checks_cons.
  destruct (forallb _ (psk :: l)) eqn:Hall; [|discriminate].
  destruct (Z.eqb_spec (Z.of_nat (length (psk :: l)))
              (patterns.psk_count pattern)) as [Hcount|]; [|discriminate].
  intros _. split; [|exact Hcount].
  apply Forall_forall. intros x Hin. apply list_elem_of_In in Hin.
  rewrite forallb_forall in Hall. now apply Z.eqb_eq, Hall.
Qed.

(** X6: the PSK invariant of a constructed descriptor.  When
    construction succeeds, [psks] is the list that the caller gave,
    [is_psk_handshake] tells whether that list is true, and in a PSK
    handshake every PSK is of 32 bytes and there are as many as the
    [psk_count] of the descriptor's pattern, with the modifiers
    applied. *)
Theorem X6_psk_invariant
    (name : bytes) (psks : option (list bytes)) (self : NoiseProtocol.t) :
  __init__ (Bytes name) psks = Ok self ->
  NoiseProtocol.psks self = psks
  /\ is_psk_handshake self = truthy psks
  /\ (is_psk_handshake self = true ->
      exists psk l,
        NoiseProtocol.psks self = Some (psk :: l)
        /\ Forall (fun psk => len psk = 32) (psk :: l)
        /\ Z.of_nat (length (psk :: l))
           = patterns.psk_count (NoiseProtocol.pattern self)).
Proof.
  intros Hinit.
  destruct (init_Ok name psks self Hinit)
    as (mappings & modifiers & pattern & _ & _ & _ & Hpsks & ->).
  apply psk_checks_Ok in Hpsks. cbn.
  split; [reflexivity|]. split; [now destruct (truthy psks)|].
  destruct psks as [[|psk l]|]; cbn; try discriminate.
  intros _. exists psk, l. now split.
Qed.

(** X7: the PSK list has no part in the resolution of the name.  When
    construction succeeds with some PSK list, it succeeds with every
    list that the descriptor's pattern accepts, with no list too, and
    the descriptors are the same but for [psks] and
    [is_psk_handshake]. *)
Theorem X7_resolution_does_not_depend_on_psks
    (name : bytes) (psks psks' : option (list bytes))
    (self : NoiseProtocol.t) :
  __init__ (Bytes name) psks = Ok self ->
  accepted_psks (NoiseProtocol.pattern self) psks' ->
  __init__ (Bytes name) psks' = Ok (set_psks psks' self).
Proof.
  intros Hinit Haccepted.
  destruct (init_Ok name psks self Hinit)
    as (mappings & modifiers & pattern & Hlen & Hparse & Hnew & _ & ->).
  rewrite (init_Ok_intro name psks' mappings modifiers pattern
             Hlen Hparse Hnew (psk_checks_accepted _ _ Haccepted)).
  reflexivity.
Qed.

End ConstructorFacts.

(** ** Further properties of the finalizer *)

Section FinalizerFacts.
Context `{Unicode, constants.t, functions.t, patterns.t, state.t}.

Local Ltac run_method :=
  unfold handshake_done, parse_protocol_name_of_self, seq, read, eval,
    assign, ret, del, getattr.

Lemma same_configuration_refl (self : NoiseProtocol.t) :
  same_configuration self self.
Proof. unfold same_configuration. now repeat split. Qed.

Lemma same_configuration_trans (self self' self'' : NoiseProtocol.t) :
  same_configuration self self' -> same_configuration self' self'' ->
  same_configuration self self''.
Proof.
  unfold same_configuration. intros Hfirst Hsecond.
  repeat match goal with H : _ /\ _ |- _ => destruct H end.
  repeat split; congruence.
Qed.

(** One call keeps the configuration, and a cipher state is behind it
    as it was before, or deleted. *)
Lemma after_frame (c : call) (self : NoiseProtocol.t) :
  same_configuration self (after c self)
  /\ (cipher_state_encrypt (after c self) = cipher_state_encrypt self
      \/ cipher_state_encrypt (after c self) = None)
  /\ (cipher_state_decrypt (after c self) = cipher_state_decrypt self
      \/ cipher_state_decrypt (after c self) = None)
  /\ (patterns.one_way (NoiseProtocol.pattern self) = false ->
      cipher_state_encrypt (after c self) = cipher_state_encrypt self
      /\ cipher_state_decrypt (after c self) = cipher_state_decrypt self).
Proof.
  unfold same_configuration.
  destruct c; unfold after; run_method; cbn;
    [|repeat split; now left].
  destruct (handshake_state self) as [|hs] eqn:Hhs; cbn;
    [repeat split; first [assumption | now left]|].
  destruct (patterns.one_way (NoiseProtocol.pattern self)) eqn:Hone_way; cbn;
    [destruct (state.initiator hs); cbn;
     [destruct (cipher_state_decrypt self) eqn:Hcd; cbn
     |destruct (cipher_state_encrypt self) eqn:Hce; cbn]|];
    try (destruct (symmetric_state self) as [|ss] eqn:Hss; cbn);
    repeat split;
    first [ assumption | discriminate | now left | now right ].
Qed.

Lemma after_all_frame (calls : list call) (self : NoiseProtocol.t) :
  same_configuration self (after_all calls self)
  /\ (cipher_state_encrypt (after_all calls self)
      = cipher_state_encrypt self
      \/ cipher_state_encrypt (after_all calls self) = None)
  /\ (cipher_state_decrypt (after_all calls self)
      = cipher_state_decrypt self
      \/ cipher_state_decrypt (after_all calls self) = None)
  /\ (patterns.one_way (NoiseProtocol.pattern self) = false ->
      cipher_state_encrypt (after_all calls self)
      = cipher_state_encrypt self
      /\ cipher_state_decrypt (after_all calls self)
         = cipher_state_decrypt self).
Proof.
  induction calls as [|c calls IH] using rev_ind.
  - split; [apply same_configuration_refl|].
    repeat split; now left.
  - unfold after_all in *. rewrite fold_left_app. cbn [fold_left].
    set (self' := fold_left (fun self c => after c self) calls self) in *.
    destruct IH as (Hsame & Hce & Hcd & Htwo_way).
    destruct (after_frame c self') as (Hsame' & Hce' & Hcd' & Htwo_way').
    split; [now apply (same_configuration_trans self self')|].
    assert (Hpattern : NoiseProtocol.pattern self'
                       = NoiseProtocol.pattern self)
      by apply Hsame.
    rewrite Hpattern in Htwo_way'.
    split; [|split].
    + destruct Hce' as [->| ->]; [exact Hce|now right].
    + destruct Hcd' as [->| ->]; [exact Hcd|now right].
    + intros Hone_way.
      destruct (Htwo_way Hone_way) as [<- <-]. now apply Htwo_way'.
Qed.

(** X8: the methods of the class leave the configuration alone.
    Through every sequence of calls of [handshake_done] and
    [_parse_protocol_name], whether they return or raise, the name,
    the pattern, the modifiers, the PSKs, the four primitives, [hmac],
    [hkdf], [one_way], the handshake state, the symmetric state and
    the handshake cipher state of the descriptor stay as they were. *)
Theorem X8_calls_keep_the_configuration
    (calls : list call) (self : NoiseProtocol.t) :
  same_configuration self (after_all calls self).
Proof. apply after_all_frame. Qed.

(** X9: the methods of the class at most delete a cipher state.
    Through every sequence of calls, each of [cipher_state_encrypt]
    and [cipher_state_decrypt] is as it was or deleted, never another
    object; once deleted it stays deleted; and with a pattern that is
    not one-way both stay as they were. *)
Theorem X9_cipher_states_are_kept_or_deleted
    (calls : list call) (self : NoiseProtocol.t) :
  (cipher_state_encrypt (after_all calls self) = cipher_state_encrypt self
   \/ cipher_state_encrypt (after_all calls self) = None)
  /\ (cipher_state_decrypt (after_all calls self)
      = cipher_state_decrypt self
      \/ cipher_state_decrypt (after_all calls self) = None)
  /\ (cipher_state_encrypt self = None ->
      cipher_state_encrypt (after_all calls self) = None)
  /\ (cipher_state_decrypt self = None ->
      cipher_state_decrypt (after_all calls self) = None)
  /\ (patterns.one_way (NoiseProtocol.pattern self) = false ->
      cipher_state_encrypt (after_all calls self)
      = cipher_state_encrypt self
      /\ cipher_state_decrypt (after_all calls self)
         = cipher_state_decrypt self).
Proof.
  destruct (after_all_frame calls self) as (_ & Hce & Hcd & Htwo_way).
  repeat split; try assumption; try (now apply Htwo_way).
  - intros Hnone. destruct Hce as [->| ->]; [exact Hnone|reflexivity].
  - intros Hnone. destruct Hcd as [->| ->]; [exact Hnone|reflexivity].
Qed.

(** X10: when [handshake_done] returns and what it raises.  It returns
    exactly when the handshake state and the symmetric state hold
    their objects and, for a one-way pattern, the cipher state that the
    role gives up is still there; every exception that it raises is an
    [AttributeError], never a [ValueError]. *)
Theorem X10_outcome_of_handshake_done (self : NoiseProtocol.t) :
  (fst (handshake_done self) = Ok tt
   <-> exists hs ss,
         handshake_state self = constants.Object hs
         /\ symmetric_state self = constants.Object ss
         /\ (patterns.one_way (NoiseProtocol.pattern self) = true ->
             if state.initiator hs
             then is_Some (cipher_state_decrypt self)
             else is_Some (cipher_state_encrypt self)))
  /\ (forall e : exn,
        fst (handshake_done self) = Raise e ->
        is_ValueError e = false
        /\ exists attribute, e = AttributeError attribute).
Proof.
  run_method. cbn.
  destruct (handshake_state self) as [|hs] eqn:Hhs; cbn.
  { split; [split; [discriminate|now intros (? & ? & [=] & _)]|].
    intros e [= <-]. split; [reflexivity|now eexists]. }
  destruct (patterns.one_way (NoiseProtocol.pattern self)) eqn:Hone_way; cbn;
    [destruct (state.initiator hs) eqn:Hrole; cbn;
     [destruct (cipher_state_decrypt self) eqn:Hcd; cbn
     |destruct (cipher_state_encrypt self) eqn:Hce; cbn]|];
    try (destruct (symmetric_state self) as [|ss] eqn:Hss; cbn);
    (split;
     [split;
      [first [ discriminate
             | intros _; exists hs, ss; repeat split; intros _;
               rewrite ?Hrole; now eexists
             | intros _; exists hs, ss; repeat split; discriminate ]
      |first [ reflexivity
             | intros (hs' & ss' & [= <-] & Hss' & Hslot);
               first [ discriminate
                     | specialize (Hslot eq_refl); rewrite Hrole in Hslot;
                       now destruct Hslot ] ]]
     |intros e; first [ discriminate
                      | intros [= <-]; split; [reflexivity|now eexists] ]]).
Qed.

(** X11: finalization before the handshake engine has run.  On a
    descriptor as the constructor returns it, [handshake_done] raises
    [AttributeError] at the role of the handshake state, which is the
    placeholder still, and leaves the descriptor as it was. *)
Theorem X11_finalization_of_a_new_descriptor
    (name : bytes) (psks : option (list bytes)) (self : NoiseProtocol.t) :
  __init__ (Bytes name) psks = Ok self ->
  handshake_done self = (Raise (AttributeError "initiator"), self).
Proof.
  intros Hinit.
  destruct (init_Ok name psks self Hinit)
    as (mappings & modifiers & pattern & _ & _ & _ & _ & ->).
  reflexivity.
Qed.

(** X12: [handshake_done] is not all or nothing.  When the handshake
    state holds its object and the symmetric state is the placeholder
    still, the call raises [AttributeError] at [h], and by then it has
    assigned [initiator] and, for a one-way pattern, deleted the cipher
    state that the role gives up; [handshake_hash] is as it was. *)
Theorem X12_exception_behind_the_assignments
    (self : NoiseProtocol.t) (hs : state.HandshakeState)
    (ce cd : constants.container state.CipherState) :
  handshake_state self = constants.Object hs ->
  symmetric_state self = constants.Empty ->
  cipher_state_encrypt self = Some ce ->
  cipher_state_decrypt self = Some cd ->
  exists self' : NoiseProtocol.t,
    handshake_done self = (Raise (AttributeError "h"), self')
    /\ initiator self' = Some (state.initiator hs)
    /\ handshake_hash self' = handshake_hash self
    /\ (if patterns.one_way (NoiseProtocol.pattern self)
        then if state.initiator hs
             then cipher_state_encrypt self' = Some ce
                  /\ cipher_state_decrypt self' = None
             else cipher_state_encrypt self' = None
                  /\ cipher_state_decrypt self' = Some cd
        else cipher_state_encrypt self' = Some ce
             /\ cipher_state_decrypt self' = Some cd).
Proof.
  intros Hhs Hss Hce Hcd. run_method. cbn. rewrite Hhs. cbn.
  destruct (patterns.one_way (NoiseProtocol.pattern self)); cbn;
    [destruct (state.initiator hs); cbn; rewrite ?Hce, ?Hcd; cbn|];
    rewrite Hss; cbn; eexists; repeat split; assumption.
Qed.

(** X13: parsing the name of a descriptor again gives what the
    descriptor holds.  On a constructed descriptor, and behind every
    sequence of calls, [_parse_protocol_name] returns, with the
    modifiers of the descriptor and with the registry entries that are
    its [dh_fn], [cipher_fn], [hash_fn] and [keypair_fn] and the
    pattern class whose instance, with the modifiers applied, is its
    pattern; the call changes nothing. *)
Theorem X13_parsing_again_agrees_with_the_descriptor
    (name : bytes) (psks : option (list bytes)) (self : NoiseProtocol.t)
    (calls : list call) :
  __init__ (Bytes name) psks = Ok self ->
  exists mappings : mapped_data.t,
    parse_protocol_name_of_self (after_all calls self)
    = (Ok (mappings, pattern_modifiers self), after_all calls self)
    /\ mapped_data.dh mappings = dh_fn self
    /\ mapped_data.cipher mappings = cipher_fn self
    /\ mapped_data.hash mappings = hash_fn self
    /\ mapped_data.keypair mappings = keypair_fn self
    /\ new_pattern (mapped_data.pattern mappings) (pattern_modifiers self)
       = Ok (NoiseProtocol.pattern self).
Proof.
  intros Hinit.
  destruct (after_all_frame calls self) as ((Hname & _) & _).
  destruct (init_Ok name psks self Hinit)
    as (mappings & modifiers & pattern & _ & Hparse & Hnew & _ & Hself).
  exists mappings. run_method. rewrite Hname. subst self. cbn.
  rewrite Hparse. now repeat split.
Qed.

End FinalizerFacts.

(** ** The further properties on the examples *)

Section MoreExamples.
#[local] Existing Instances Sample.unicode Sample.constants
  Sample.functions Sample.patterns Sample.state.

(** An object that is not [bytes], a long name that is not UTF-8, a
    short one that is not, two names that do not begin with the segment
    [Noise], and the empty name. *)
Lemma X2_witness :
  __init__ (NoBytes "str") None = Raise (ValueError (NotBytes "str"))
  /\ __init__ (Bytes Sample.long_garbage) None
     = Raise (ValueError (NameTooLong 255))
  /\ __init__ (Bytes (String "255"%char EmptyString)) None
     = Raise UnicodeDecodeError
  /\ __init__ (Bytes "NoiseXX_25519_AESGCM_SHA256") None
     = Raise (ValueError (BadPrefix "NoiseXX_25519_AESGCM_SHA256"))
  /\ __init__ (Bytes "noise_XX_25519_AESGCM_SHA256") None
     = Raise (ValueError (BadPrefix "noise_XX_25519_AESGCM_SHA256"))
  /\ __init__ (Bytes "") None = Raise (ValueError (BadPrefix "")).
Proof.
  destruct (@X2_identifier_checks_in_order
              Sample.unicode Sample.constants Sample.functions
              Sample.patterns Sample.state None)
    as (Htype & Hlong & Hdecode & Hprefix).
  split; [apply Htype|].
  split; [apply Hlong; vm_compute; reflexivity|].
  split; [apply Hdecode; [vm_compute; discriminate|reflexivity]|].
  split; [apply (Hprefix _ (lit "NoiseXX_25519_AESGCM_SHA256"));
          [vm_compute; discriminate|reflexivity|vm_compute; discriminate]|].
  split; [apply (Hprefix _ (lit "noise_XX_25519_AESGCM_SHA256"));
          [vm_compute; discriminate|reflexivity|vm_compute; discriminate]|].
  apply (Hprefix _ []);
    [vm_compute; discriminate|reflexivity|vm_compute; discriminate].
Defined.


(** A modifier that the pattern does not know: the exception is the
    pattern's, and a [ValueError] here. *)
Lemma X4_witness :
  __init__ (Bytes "Noise_XXfoo_25519_AESGCM_SHA256") None
  = Raise (ValueError (Other "Unknown pattern modifier"))
  /\ (is_ValueError (ValueError (Other "Unknown pattern modifier")) = true
      \/ (ValueError (Other "Unknown pattern modifier") = IndexError
          /\ exists name text,
               Bytes "Noise_XXfoo_25519_AESGCM_SHA256" = Bytes name
               /\ decode name = Some text
               /\ head (split (ord "_") text) = Some (lit "Noise")
               /\ (length (split (ord "_") text) < 5)%nat)
      \/ (exists name mappings modifiers,
            Bytes "Noise_XXfoo_25519_AESGCM_SHA256" = Bytes name
            /\ _parse_protocol_name name = Ok (mappings, modifiers)
            /\ modifiers <> []
            /\ patterns.apply_pattern_modifiers
                 (patterns.new (mapped_data.pattern mappings)) modifiers
               = Raise (ValueError (Other "Unknown pattern modifier")))).
Proof.
  split; [reflexivity|].
  exact (@X4_exceptions_of_the_constructor
           Sample.unicode Sample.constants Sample.functions
           Sample.patterns Sample.state
           (Bytes "Noise_XXfoo_25519_AESGCM_SHA256") None _ eq_refl).
Defined.

(** The second example of the specification, read back. *)
Lemma X5_witness :
  exists self : NoiseProtocol.t,
    __init__ (Bytes "Noise_IKpsk2_25519_ChaChaPoly_BLAKE2s") None = Ok self
    /\ len (NoiseProtocol.name self) <= 255
    /\ pattern_modifiers self = [lit "psk2"]
    /\ functions.dh_map !! lit "25519" = Some (dh_fn self)
    /\ functions.cipher_map !! lit "ChaChaPoly" = Some (cipher_fn self)
    /\ functions.hash_map !! lit "BLAKE2s" = Some (hash_fn self)
    /\ functions.keypair_map !! lit "25519" = Some (keypair_fn self).
Proof.
  eexists. split; [reflexivity|].
  destruct (@X5_descriptor_comes_from_the_registries
              Sample.unicode Sample.constants Sample.functions
              Sample.patterns Sample.state
              "Noise_IKpsk2_25519_ChaChaPoly_BLAKE2s" None _ eq_refl)
    as (Hname & Hlen & text & s1 & s2 & s3 & s4 & extra & cls
        & Hdecode & Hsplit & Hmodifiers & _ & _
        & Hdh & Hcipher & Hhash & Hkeypair).
  injection Hdecode as <-. injection Hsplit as <- <- <- <- <-.
  split; [exact Hlen|]. split; [exact Hmodifiers|].
  now repeat split.
Defined.

(** One PSK of 32 bytes for the pattern [XX] with [psk0]. *)
Lemma X6_witness :
  exists self : NoiseProtocol.t,
    __init__ (Bytes "Noise_XXpsk0_25519_AESGCM_SHA256")
      (Some [Sample.copies 32 "k"]) = Ok self
    /\ NoiseProtocol.psks self = Some [Sample.copies 32 "k"]
    /\ is_psk_handshake self = true
    /\ exists psk l,
         NoiseProtocol.psks self = Some (psk :: l)
         /\ Forall (fun psk => len psk = 32) (psk :: l)
         /\ Z.of_nat (length (psk :: l))
            = patterns.psk_count (NoiseProtocol.pattern self).
Proof.
  eexists. split; [reflexivity|].
  destruct (@X6_psk_invariant
              Sample.unicode Sample.constants Sample.functions
              Sample.patterns Sample.state
              "Noise_XXpsk0_25519_AESGCM_SHA256"
              (Some [Sample.copies 32 "k"]) _ eq_refl)
    as (Hpsks & Hmode & Hinvariant).
  split; [exact Hpsks|]. split; [exact Hmode|].
  exact (Hinvariant Hmode).
Defined.

(** The same name with one PSK, with none, and with another PSK. *)
Lemma X7_witness :
  exists self : NoiseProtocol.t,
    __init__ (Bytes "Noise_XXpsk0_25519_AESGCM_SHA256")
      (Some [Sample.copies 32 "k"]) = Ok self
    /\ __init__ (Bytes "Noise_XXpsk0_25519_AESGCM_SHA256") None
       = Ok (set_psks None self)
    /\ __init__ (Bytes "Noise_XXpsk0_25519_AESGCM_SHA256")
         (Some [Sample.copies 32 "j"])
       = Ok (set_psks (Some [Sample.copies 32 "j"]) self).
Proof.
  eexists. split; [reflexivity|]. split.
  - exact (@X7_resolution_does_not_depend_on_psks
             Sample.unicode Sample.constants Sample.functions
             Sample.patterns Sample.state
             "Noise_XXpsk0_25519_AESGCM_SHA256"
             (Some [Sample.copies 32 "k"]) None _ eq_refl I).
  - apply (@X7_resolution_does_not_depend_on_psks
             Sample.unicode Sample.constants Sample.functions
             Sample.patterns Sample.state
             "Noise_XXpsk0_25519_AESGCM_SHA256"
             (Some [Sample.copies 32 "k"]) (Some [Sample.copies 32 "j"])
             _ eq_refl).
    split; [repeat constructor|reflexivity].
Defined.

(** The first example of the specification, finalized at once. *)
Lemma X11_witness :
  exists self : NoiseProtocol.t,
    __init__ (Bytes "Noise_XX_25519_AESGCM_SHA256") None = Ok self
    /\ handshake_done self = (Raise (AttributeError "initiator"), self).
Proof.
  eexists. split; [reflexivity|].
  exact (@X11_finalization_of_a_new_descriptor
           Sample.unicode Sample.constants Sample.functions
           Sample.patterns Sample.state
           "Noise_XX_25519_AESGCM_SHA256" None _ eq_refl).
Defined.

(** The initiator of the one-way pattern [N], with no symmetric state. *)
Lemma X12_witness :
  exists self : NoiseProtocol.t,
    Sample.interrupted "Noise_N_25519_AESGCM_SHA256" true = Ok self
    /\ exists self' : NoiseProtocol.t,
         handshake_done self = (Raise (AttributeError "h"), self')
         /\ initiator self' = Some true
         /\ handshake_hash self' = None
         /\ cipher_state_encrypt self' = Some constants.Empty
         /\ cipher_state_decrypt self' = None.
Proof.
  eexists. split; [reflexivity|].
  match goal with
  | |- exists self', handshake_done ?self = _ /\ _ =>
      exact (@X12_exception_behind_the_assignments
               Sample.functions Sample.patterns Sample.state
               self true constants.Empty constants.Empty
               eq_refl eq_refl eq_refl eq_refl)
  end.
Defined.

(** The pattern [XX], finalized before the engine has run and parsed
    again. *)
Lemma X13_witness :
  exists (self : NoiseProtocol.t) (mappings : mapped_data.t),
    __init__ (Bytes "Noise_XX_25519_AESGCM_SHA256") None = Ok self
    /\ parse_protocol_name_of_self
         (after_all [call_handshake_done; call_parse_protocol_name] self)
       = (Ok (mappings, []),
          after_all [call_handshake_done; call_parse_protocol_name] self)
    /\ mapped_data.dh mappings = "DH 25519"%string.
Proof.
  eexists.
  destruct (@X13_parsing_again_agrees_with_the_descriptor
              Sample.unicode Sample.constants Sample.functions
              Sample.patterns Sample.state
              "Noise_XX_25519_AESGCM_SHA256" None _
              [call_handshake_done; call_parse_protocol_name] eq_refl)
    as (mappings & Hparse & Hdh & _).
  exists mappings. split; [reflexivity|]. split; [exact Hparse|exact Hdh].
Defined.

End MoreExamples.
